(** * Data-Pipelines: the Snowpark loader procedure

    A shallow embedding of [src/snowpark_pipeline.py] and of the part of the
    warehouse it talks to.

    - [Pipeline] embeds the Python module: the environment-sourced
      configuration read at import, the SQL text built by the f-strings, the
      helper [_exec] and the procedure [main], written against the two
      session calls the source makes ([session.sql(..).collect()] and
      [DataFrame.collect()]).
    - [Snowflake] is a model of the external warehouse those calls reach: a
      lexer and a parser for the statement forms, a catalog, the bulk load
      from staged CSV files and the evaluation of a DataFrame plan.
    - The theorems follow, one block per property of the specification. *)

From Stdlib Require Import ZArith String Ascii List Bool Lia.
From Stdlib Require Import Floats.SpecFloat.
From stdpp Require Import base option list gmap strings.

Open Scope string_scope.

(* ===================================================================== *)
(** * Values exchanged with the warehouse *)
(* ===================================================================== *)

(** IEEE-754 binary64, as the Standard Library specifies it. *)
Definition double : Type := spec_float.
Definition double_prec : Z := 53.
Definition double_emax : Z := 1024.

(** A cell of a result row or of a stored row. *)
Inductive value : Type :=
| VNull
| VText (s : string)
| VNumber (n : Z)
| VDouble (d : double).

(** [snowpark.Row]: the fields of a record in order, each under its name. *)
Definition Row : Type := list (string * value).

Definition field_names (r : Row) : list string := map fst r.

Definition get_field (name : string) (r : Row) : option value :=
  snd <$> find (fun f => String.eqb (fst f) name) r.

(* ===================================================================== *)
(** * The Snowpark client API used by the module *)
(* ===================================================================== *)

(** Column expressions: [col(name)] and [Column.cast(type)]. *)
Inductive Column : Type :=
| col (name : string)
| cast (c : Column) (to : string).

(** A DataFrame is a lazy plan; nothing reaches the warehouse before
    [collect]. *)
Inductive DataFrame : Type :=
| table (name : string)
| with_column (df : DataFrame) (name : string) (c : Column)
| limit (df : DataFrame) (n : nat).

(** What a procedure asks of its session, in order.  [Sql] is
    [session.sql(text).collect()], [Collect] is [df.collect()]; each hands
    the returned rows to the rest of the procedure. *)
Inductive Action (A : Type) : Type :=
| Return (a : A)
| Sql (text : string) (k : list Row -> Action A)
| Collect (df : DataFrame) (k : list Row -> Action A).
Arguments Return {A} a.
Arguments Sql {A} text k.
Arguments Collect {A} df k.

Fixpoint bind {A B : Type} (m : Action A) (f : A -> Action B) : Action B :=
  match m with
  | Return a => f a
  | Sql text k => Sql text (fun rows => bind (k rows) f)
  | Collect df k => Collect df (fun rows => bind (k rows) f)
  end.

Notation "m ;; n" := (bind m (fun _ => n))
  (at level 100, right associativity).

(** A round trip to the warehouse, as it shows on the wire. *)
Inductive Request : Type :=
| ReqSql (text : string)
| ReqCollect (df : DataFrame).

(** A session: some state on the far side and the two calls.  [None] is a
    raised exception. *)
Record Session : Type := {
  state : Type;
  run_sql : string -> state -> option (list Row * state);
  run_collect : DataFrame -> state -> option (list Row * state)
}.

Definition serve (S : Session) (r : Request) (s : state S)
  : option (list Row * state S) :=
  match r with
  | ReqSql text => run_sql S text s
  | ReqCollect df => run_collect S df s
  end.

(** What a run leaves behind: the requests issued, in order, the value
    returned ([None] when an exception ended the run) and the state of the
    far side at the end. *)
Record Outcome (St A : Type) : Type := {
  issued : list Request;
  returned : option A;
  final : St
}.
Arguments issued {St A} o.
Arguments returned {St A} o.
Arguments final {St A} o.

(** The request [r] was served and the run went on as [o]. *)
Definition sent {St A : Type} (r : Request) (o : Outcome St A)
  : Outcome St A :=
  {| issued := r :: issued o; returned := returned o; final := final o |}.

(** The request [r] raised in state [s]; a request that fails changes
    nothing. *)
Definition raised {St A : Type} (r : Request) (s : St) : Outcome St A :=
  {| issued := [r]; returned := None; final := s |}.

(** Running a procedure against a session.  A request is issued on the
    state the previous one left, and only once that one has been answered;
    an exception ends the run where it is raised. *)
Fixpoint run (S : Session) {A : Type} (p : Action A) (s : state S)
  : Outcome (state S) A :=
  match p with
  | Return a => {| issued := []; returned := Some a; final := s |}
  | Sql text k =>
      match run_sql S text s with
      | None => raised (ReqSql text) s
      | Some (rows, s') => sent (ReqSql text) (run S (k rows) s')
      end
  | Collect df k =>
      match run_collect S df s with
      | None => raised (ReqCollect df) s
      | Some (rows, s') => sent (ReqCollect df) (run S (k rows) s')
      end
  end.

(** Issuing a fixed list of requests one after the other, each on the state
    left by the one before, stopping at the first exception; the rows of the
    last request are the result. *)
Fixpoint issue_all (S : Session) (rs : list Request) (last : list Row)
  (s : state S) : Outcome (state S) (list Row) :=
  match rs with
  | [] => {| issued := []; returned := Some last; final := s |}
  | r :: rs' =>
      match serve S r s with
      | None => raised r s
      | Some (rows, s') => sent r (issue_all S rs' rows s')
      end
  end.

(* ===================================================================== *)
(** * src/snowpark_pipeline.py *)
(* ===================================================================== *)

Module Pipeline.

(** [os.getenv(key, default)] over [os.environ]. *)
Definition getenv (environ : gmap string string) (key default : string)
  : string :=
  match environ !! key with
  | Some v => v
  | None => default
  end.

(** The module's globals, bound once when the module is imported
    (lines 11-22). *)
Record Globals : Type := {
  DB : string;
  SCHEMA : string;
  FILE_FORMAT_NAME : string;
  STAGE_NAME : string;
  TABLE_NAME : string;
  S3_URL : string;
  COPY_PATTERN : string;
  FQ_FILE_FORMAT : string;
  FQ_STAGE : string;
  FQ_TABLE : string
}.

(** The f-string [f"{a}.{b}.{c}"]. *)
Definition fq (a b c : string) : string := a +:+ "." +:+ b +:+ "." +:+ c.

(** Executing the module body. *)
Definition import_module (environ : gmap string string) : Globals :=
  let DB := getenv environ "SF_DB" "DATA_PIPELINE_DB" in
  let SCHEMA := getenv environ "SF_SCHEMA" "CSV_FILES" in
  let FILE_FORMAT_NAME := getenv environ "SF_FILE_FORMAT" "csv_format" in
  let STAGE_NAME := getenv environ "SF_STAGE" "aws_stage" in
  let TABLE_NAME := getenv environ "SF_TABLE" "ORDERS" in
  let S3_URL := getenv environ "S3_URL" "s3://bucketsnowflakes3/" in
  let COPY_PATTERN := getenv environ "COPY_PATTERN" ".*Order.*" in
  {| DB := DB;
     SCHEMA := SCHEMA;
     FILE_FORMAT_NAME := FILE_FORMAT_NAME;
     STAGE_NAME := STAGE_NAME;
     TABLE_NAME := TABLE_NAME;
     S3_URL := S3_URL;
     COPY_PATTERN := COPY_PATTERN;
     FQ_FILE_FORMAT := fq DB SCHEMA FILE_FORMAT_NAME;
     FQ_STAGE := fq DB SCHEMA STAGE_NAME;
     FQ_TABLE := fq DB SCHEMA TABLE_NAME |}.

(** A line of a triple-quoted statement: the line break and the eight
    blanks of indentation the source has before it. *)
Definition LF : string := String "010"%char "".
Definition line (s : string) : string := LF +:+ "        " +:+ s.
Definition line12 (s : string) : string := LF +:+ "            " +:+ s.

(** The SQL text of each statement (lines 37-88). *)
Definition create_database_sql (g : Globals) : string :=
  "CREATE DATABASE IF NOT EXISTS " +:+ DB g.

Definition create_schema_sql (g : Globals) : string :=
  "CREATE SCHEMA IF NOT EXISTS " +:+ DB g +:+ "." +:+ SCHEMA g.

Definition create_file_format_sql (g : Globals) : string :=
  line ("CREATE FILE FORMAT IF NOT EXISTS " +:+ FQ_FILE_FORMAT g) +:+
  line "TYPE = CSV" +:+
  line "FIELD_DELIMITER = ','" +:+
  line "SKIP_HEADER = 1" +:+
  line "EMPTY_FIELD_AS_NULL = TRUE" +:+
  line "".

Definition create_stage_sql (g : Globals) : string :=
  line ("CREATE STAGE IF NOT EXISTS " +:+ FQ_STAGE g) +:+
  line ("URL = '" +:+ S3_URL g +:+ "'") +:+
  line ("FILE_FORMAT = (FORMAT_NAME = " +:+ FQ_FILE_FORMAT g +:+ ")") +:+
  line "".

Definition create_table_sql (g : Globals) : string :=
  line ("CREATE TABLE IF NOT EXISTS " +:+ FQ_TABLE g +:+ "(") +:+
  line12 "ID STRING," +:+
  line12 "Amount NUMBER," +:+
  line12 "Profit NUMBER," +:+
  line12 "Quantity NUMBER," +:+
  line12 "Category STRING," +:+
  line12 "Sub_Category STRING" +:+
  line ")" +:+
  line "".

Definition copy_into_sql (g : Globals) : string :=
  line ("COPY INTO " +:+ FQ_TABLE g) +:+
  line ("FROM @" +:+ FQ_STAGE g) +:+
  line ("FILE_FORMAT = (FORMAT_NAME = " +:+ FQ_FILE_FORMAT g +:+ ")") +:+
  line ("PATTERN = '" +:+ COPY_PATTERN g +:+ "'") +:+
  line "ON_ERROR = CONTINUE" +:+
  line "".

(** [_exec(session, sql)]: run the statement, drop its rows, return
    [None]. *)
Definition _exec (sql : string) : Action unit :=
  Sql sql (fun _ => Return tt).

(** [df_transformed] of lines 91-97. *)
Definition df_transformed (g : Globals) : DataFrame :=
  let df := table (FQ_TABLE g) in
  with_column
    (with_column df "Amount_num" (cast (col "Amount") "DOUBLE"))
    "Profit_num" (cast (col "Profit") "DOUBLE").

(** [main(session)], lines 28-100. *)
Definition main (g : Globals) : Action (list Row) :=
  _exec (create_database_sql g) ;;
  _exec (create_schema_sql g) ;;
  _exec (create_file_format_sql g) ;;
  _exec (create_stage_sql g) ;;
  _exec (create_table_sql g) ;;
  _exec (copy_into_sql g) ;;
  Collect (limit (df_transformed g) 10) Return.

(** ** The process around the module *)

(** A Python process holding the imported module: the live environment and
    the module's globals.  [os.environ] can be written at any time; the
    globals are bound by the import and [main] reads them only. *)
Record Process : Type := {
  environ : gmap string string;
  globals : Globals
}.

Definition start (environ : gmap string string) : Process :=
  {| environ := environ; globals := import_module environ |}.

Definition setenv (key val : string) (p : Process) : Process :=
  {| environ := <[key := val]> (environ p); globals := globals p |}.

Definition unsetenv (key : string) (p : Process) : Process :=
  {| environ := delete key (environ p); globals := globals p |}.

Definition call_main (p : Process) : Action (list Row) := main (globals p).

End Pipeline.

(* ===================================================================== *)
(** * The warehouse *)
(* ===================================================================== *)

(** A model of the warehouse on the far side of the session: what it does
    with the statement text it receives and with a DataFrame plan.  The
    warehouse is not part of the repository; the model follows its
    documented behaviour, within these bounds:
    - it covers the statement forms [main] issues together with their
      sibling forms (a plain [CREATE] without [IF NOT EXISTS], [ON_ERROR =
      ABORT_STATEMENT], options left out); any other text is refused;
    - identifiers are the unquoted ones, resolved in upper case, and object
      names are fully qualified;
    - a file format is a CSV profile without quoting, whose other options
      are at their defaults: the field [\N] is NULL (NULL_IF), and the
      character after a backslash stands for itself and ends neither a
      field nor a record (ESCAPE_UNENCLOSED_FIELD); records end at a line
      feed, and a pattern is made of literal characters, [.] and [*];
    - a number in a file is a sign, digits, a fraction and an exponent;
    - a column declared NUMBER is NUMBER(38,0);
    - a query is compiled against the columns of its table, whatever rows
      the table holds, and then evaluated row by row;
    - a statement that fails changes nothing, and the files a table has
      already loaded are not remembered from one load to the next. *)
Module Snowflake.

(** ** Characters *)

Definition in_range (lo hi : nat) (c : ascii) : bool :=
  (lo <=? nat_of_ascii c)%nat && (nat_of_ascii c <=? hi)%nat.

Definition is_upper : ascii -> bool := in_range 65 90.
Definition is_lower : ascii -> bool := in_range 97 122.
Definition is_digit : ascii -> bool := in_range 48 57.
Definition is_letter (c : ascii) : bool := is_upper c || is_lower c.

Definition is_space (c : ascii) : bool :=
  Ascii.eqb c " " || Ascii.eqb c "009" || Ascii.eqb c "010" ||
  Ascii.eqb c "013".

Definition is_word_char (c : ascii) : bool :=
  is_letter c || is_digit c || Ascii.eqb c "_" || Ascii.eqb c "$".

Definition is_symbol (c : ascii) : bool :=
  Ascii.eqb c "=" || Ascii.eqb c "(" || Ascii.eqb c ")" ||
  Ascii.eqb c "," || Ascii.eqb c "@" || Ascii.eqb c ".".

Definition to_upper (c : ascii) : ascii :=
  if is_lower c then ascii_of_nat (nat_of_ascii c - 32) else c.

Fixpoint upper (s : string) : string :=
  match s with
  | "" => ""
  | String c s' => String (to_upper c) (upper s')
  end.

Fixpoint all_chars (p : ascii -> bool) (s : string) : bool :=
  match s with
  | "" => true
  | String c s' => p c && all_chars p s'
  end.

(** An unquoted identifier: a letter or an underscore, then letters, digits,
    underscores and dollar signs. *)
Definition is_identifier (s : string) : bool :=
  match s with
  | "" => false
  | String c _ => (is_letter c || Ascii.eqb c "_") && all_chars is_word_char s
  end.

(** Text that can stand between single quotes as it is: no quote and no
    escape character. *)
Definition is_plain (c : ascii) : bool :=
  negb (Ascii.eqb c "'") && negb (Ascii.eqb c "\").

(** ** Tokens *)

Inductive token : Type :=
| TWord (w : string)
| TStr (s : string)
| TSym (c : ascii).

Inductive lex_mode : Type :=
| Idle
| InWord (w : string)
| InQuote (q : string).

Definition snoc (s : string) (c : ascii) : string := s +:+ String c "".

Definition lex_state : Type := list token * lex_mode.

(** The lexer at the first character of a token, [ts] being the tokens
    read so far. *)
Definition lex_start (ts : list token) (c : ascii) : option lex_state :=
  if is_space c then Some (ts, Idle)
  else if Ascii.eqb c "'" then Some (ts, InQuote "")
  else if is_word_char c then Some (ts, InWord (String c ""))
  else if is_symbol c then Some (ts ++ [TSym c], Idle)%list
  else None.

(** One character.  A word ends at the first character that cannot be part
    of one; a quoted text ends at the next quote. *)
Definition lex_step (st : lex_state) (c : ascii) : option lex_state :=
  match st with
  | (ts, Idle) => lex_start ts c
  | (ts, InWord w) =>
      if is_word_char c then Some (ts, InWord (snoc w c))
      else lex_start (ts ++ [TWord w])%list c
  | (ts, InQuote q) =>
      if Ascii.eqb c "'" then Some (ts ++ [TStr q], Idle)%list
      else if is_plain c then Some (ts, InQuote (snoc q c))
      else None
  end.

Fixpoint lex_run (st : lex_state) (s : string) : option lex_state :=
  match s with
  | "" => Some st
  | String c s' => st' ← lex_step st c; lex_run st' s'
  end.

(** The end of the text: a word may end there, a quoted text may not. *)
Definition lex_end (st : lex_state) : option (list token) :=
  match st with
  | (ts, Idle) => Some ts
  | (ts, InWord w) => Some (ts ++ [TWord w])%list
  | (_, InQuote _) => None
  end.

Definition lex (s : string) : option (list token) :=
  lex_run ([], Idle) s ≫= lex_end.

(** ** Statements *)

Inductive sqltype : Type := STRING | NUMBER | DOUBLE.

Inductive on_error : Type := CONTINUE | ABORT_STATEMENT.

(** Only CSV profiles are modelled. *)
Inductive format_type : Type := CSV.

(** A parsing profile. *)
Record file_format : Type := {
  type : format_type;
  field_delimiter : ascii;
  skip_header : nat;
  empty_field_as_null : bool
}.

(** The profile of a [CREATE FILE FORMAT] that sets no option. *)
Definition default_file_format : file_format :=
  {| type := CSV; field_delimiter := ","; skip_header := 0;
     empty_field_as_null := true |}.

(** The options no statement of the model sets stay at their defaults.  Two
    of them bear on how a file is read: [NULL_IF = ('\N')] and
    [ESCAPE_UNENCLOSED_FIELD = '\']. *)
Definition null_if : list string := ["\N"].
Definition escape_unenclosed_field : ascii := "\".

Definition qname : Type := string * string * string.

Inductive stmt : Type :=
| CreateDatabase (if_not_exists : bool) (name : string)
| CreateSchema (if_not_exists : bool) (name : string * string)
| CreateFileFormat (if_not_exists : bool) (name : qname) (ff : file_format)
| CreateStage (if_not_exists : bool) (name : qname) (url : string)
    (ff : option qname)
| CreateTable (if_not_exists : bool) (name : qname)
    (cols : list (string * sqltype))
| CopyInto (tbl stg : qname) (ff : option qname) (pattern : option string)
    (policy : on_error).

(** ** Parser *)

Definition keyword (k : string) (ts : list token) : option (list token) :=
  match ts with
  | TWord w :: ts' => if String.eqb (upper w) k then Some ts' else None
  | _ => None
  end.

Definition symbol (c : ascii) (ts : list token) : option (list token) :=
  match ts with
  | TSym c' :: ts' => if Ascii.eqb c' c then Some ts' else None
  | _ => None
  end.

Definition identifier (ts : list token) : option (string * list token) :=
  match ts with
  | TWord w :: ts' => if is_identifier w then Some (upper w, ts') else None
  | _ => None
  end.

Definition string_literal (ts : list token) : option (string * list token) :=
  match ts with
  | TStr s :: ts' => Some (s, ts')
  | _ => None
  end.

Definition name2 (ts : list token) : option (string * string * list token) :=
  '(a, ts) ← identifier ts;
  ts ← symbol "." ts;
  '(b, ts) ← identifier ts;
  Some (a, b, ts).

Definition name3 (ts : list token) : option (qname * list token) :=
  '(a, b, ts) ← name2 ts;
  ts ← symbol "." ts;
  '(c, ts) ← identifier ts;
  Some ((a, b, c), ts).

Definition if_not_exists_clause (ts : list token) : bool * list token :=
  match
    (ts ← keyword "IF" ts; ts ← keyword "NOT" ts; keyword "EXISTS" ts)
  with
  | Some ts' => (true, ts')
  | None => (false, ts)
  end.

Definition end_of_statement {A : Type} (ts : list token) (a : A) : option A :=
  match ts with
  | [] => Some a
  | _ => None
  end.

Definition digit_value (c : ascii) : option nat :=
  if is_digit c then Some (nat_of_ascii c - 48)%nat else None.

Fixpoint digits_from (acc : N) (s : string) : option N :=
  match s with
  | "" => Some acc
  | String c s' =>
      d ← digit_value c; digits_from (acc * 10 + N.of_nat d)%N s'
  end.

(** A non-empty run of decimal digits. *)
Definition digits (s : string) : option N :=
  match s with
  | "" => None
  | _ => digits_from 0%N s
  end.

Definition type_of_name (w : string) : option sqltype :=
  if String.eqb w "STRING" then Some STRING
  else if String.eqb w "VARCHAR" then Some STRING
  else if String.eqb w "TEXT" then Some STRING
  else if String.eqb w "NUMBER" then Some NUMBER
  else if String.eqb w "DOUBLE" then Some DOUBLE
  else if String.eqb w "FLOAT" then Some DOUBLE
  else None.

Definition set_format_option (k : string) (v : token) (ff : file_format)
  : option file_format :=
  if String.eqb k "TYPE" then
    match v with
    | TWord w =>
        t ← (if String.eqb (upper w) "CSV" then Some CSV else None);
        Some {| type := t; field_delimiter := field_delimiter ff;
                skip_header := skip_header ff;
                empty_field_as_null := empty_field_as_null ff |}
    | _ => None
    end
  else if String.eqb k "FIELD_DELIMITER" then
    match v with
    | TStr (String c "") =>
        Some {| type := type ff; field_delimiter := c;
                skip_header := skip_header ff;
                empty_field_as_null := empty_field_as_null ff |}
    | _ => None
    end
  else if String.eqb k "SKIP_HEADER" then
    match v with
    | TWord w =>
        n ← digits w;
        Some {| type := type ff; field_delimiter := field_delimiter ff;
                skip_header := N.to_nat n;
                empty_field_as_null := empty_field_as_null ff |}
    | _ => None
    end
  else if String.eqb k "EMPTY_FIELD_AS_NULL" then
    match v with
    | TWord w =>
        b ← (if String.eqb (upper w) "TRUE" then Some true
             else if String.eqb (upper w) "FALSE" then Some false
             else None);
        Some {| type := type ff; field_delimiter := field_delimiter ff;
                skip_header := skip_header ff;
                empty_field_as_null := b |}
    | _ => None
    end
  else None.

(** The [KEY = value] options of a file format, applied left to right. *)
Fixpoint format_options (ts : list token) (ff : file_format)
  : option file_format :=
  match ts with
  | [] => Some ff
  | TWord k :: TSym c :: v :: ts' =>
      if Ascii.eqb c "=" then
        ff' ← set_format_option (upper k) v ff; format_options ts' ff'
      else None
  | _ => None
  end.

(** [KEY = ( FORMAT_NAME = name )]'s right-hand side. *)
Definition format_name (ts : list token) : option (qname * list token) :=
  ts ← symbol "(" ts;
  ts ← keyword "FORMAT_NAME" ts;
  ts ← symbol "=" ts;
  '(n, ts) ← name3 ts;
  ts ← symbol ")" ts;
  Some (n, ts).

(** An optional clause [KEY = rhs]. *)
Definition clause {A : Type} (k : string)
  (rhs : list token -> option (A * list token)) (ts : list token)
  : option (option A * list token) :=
  match keyword k ts with
  | Some ts' =>
      ts' ← symbol "=" ts';
      '(a, ts') ← rhs ts';
      Some (Some a, ts')
  | None => Some (None, ts)
  end.

Fixpoint column_defs (ts : list token) : option (list (string * sqltype)) :=
  match ts with
  | TWord n :: TWord t :: TSym c :: ts' =>
      if is_identifier n then
        ty ← type_of_name (upper t);
        if Ascii.eqb c "," then ((upper n, ty) ::.) <$> column_defs ts'
        else if Ascii.eqb c ")" then end_of_statement ts' [(upper n, ty)]
        else None
      else None
  | _ => None
  end.

Fixpoint distinct (l : list string) : bool :=
  match l with
  | [] => true
  | x :: l' => negb (existsb (String.eqb x) l') && distinct l'
  end.

Definition policy_of_name (ts : list token) : option (on_error * list token) :=
  match ts with
  | TWord w :: ts' =>
      if String.eqb (upper w) "CONTINUE" then Some (CONTINUE, ts')
      else if String.eqb (upper w) "ABORT_STATEMENT"
      then Some (ABORT_STATEMENT, ts')
      else None
  | _ => None
  end.

Definition parse_create (ts : list token) : option stmt :=
  match ts with
  | TWord k :: ts =>
      if String.eqb (upper k) "DATABASE" then
        let '(ine, ts) := if_not_exists_clause ts in
        '(n, ts) ← identifier ts;
        end_of_statement ts (CreateDatabase ine n)
      else if String.eqb (upper k) "SCHEMA" then
        let '(ine, ts) := if_not_exists_clause ts in
        '(a, b, ts) ← name2 ts;
        end_of_statement ts (CreateSchema ine (a, b))
      else if String.eqb (upper k) "FILE" then
        ts ← keyword "FORMAT" ts;
        let '(ine, ts) := if_not_exists_clause ts in
        '(n, ts) ← name3 ts;
        ff ← format_options ts default_file_format;
        Some (CreateFileFormat ine n ff)
      else if String.eqb (upper k) "STAGE" then
        let '(ine, ts) := if_not_exists_clause ts in
        '(n, ts) ← name3 ts;
        ts ← keyword "URL" ts;
        ts ← symbol "=" ts;
        '(u, ts) ← string_literal ts;
        '(ff, ts) ← clause "FILE_FORMAT" format_name ts;
        end_of_statement ts (CreateStage ine n u ff)
      else if String.eqb (upper k) "TABLE" then
        let '(ine, ts) := if_not_exists_clause ts in
        '(n, ts) ← name3 ts;
        ts ← symbol "(" ts;
        cols ← column_defs ts;
        if distinct (map fst cols) then Some (CreateTable ine n cols)
        else None
      else None
  | _ => None
  end.

Definition parse_copy (ts : list token) : option stmt :=
  ts ← keyword "INTO" ts;
  '(tbl, ts) ← name3 ts;
  ts ← keyword "FROM" ts;
  ts ← symbol "@" ts;
  '(stg, ts) ← name3 ts;
  '(ff, ts) ← clause "FILE_FORMAT" format_name ts;
  '(pat, ts) ← clause "PATTERN" string_literal ts;
  '(pol, ts) ← clause "ON_ERROR" policy_of_name ts;
  end_of_statement ts (CopyInto tbl stg ff pat (default ABORT_STATEMENT pol)).

Definition parse (ts : list token) : option stmt :=
  match ts with
  | TWord k :: ts' =>
      if String.eqb (upper k) "CREATE" then parse_create ts'
      else if String.eqb (upper k) "COPY" then parse_copy ts'
      else None
  | _ => None
  end.

Definition parse_sql (text : string) : option stmt := lex text ≫= parse.

(** ** Numbers *)

(** The text before the first character that satisfies [p], and the text
    after that character when there is one. *)
Fixpoint break (p : ascii -> bool) (s : string) : string * option string :=
  match s with
  | "" => ("", None)
  | String c s' =>
      if p c then ("", Some s')
      else let '(a, b) := break p s' in (String c a, b)
  end.

(** Digits with an optional fraction, at least one digit: the digits read
    as one integer and the number of fraction digits. *)
Definition unsigned_decimal (s : string) : option (N * nat) :=
  match break (fun c => Ascii.eqb c ".") s with
  | (i, None) => m ← digits i; Some (m, 0%nat)
  | (i, Some f) => m ← digits (i +:+ f); Some (m, String.length f)
  end.

(** The exponent after the mark: an optional sign and digits. *)
Definition exponent (s : string) : option Z :=
  match s with
  | String c s' =>
      if Ascii.eqb c "-" then n ← digits s'; Some (- Z.of_N n)%Z
      else if Ascii.eqb c "+" then n ← digits s'; Some (Z.of_N n)
      else n ← digits s; Some (Z.of_N n)
  | "" => None
  end.

Definition is_exponent_mark (c : ascii) : bool :=
  Ascii.eqb c "e" || Ascii.eqb c "E".

(** [m / 10^k * 10^e], written again as an integer over a power of ten. *)
Definition scaled (m : N) (k : nat) (e : Z) : N * nat :=
  if (e <=? Z.of_nat k)%Z then (m, Z.to_nat (Z.of_nat k - e))
  else ((m * 10 ^ Z.to_N (e - Z.of_nat k))%N, 0%nat).

Definition unsigned_number (s : string) : option (N * nat) :=
  match break is_exponent_mark s with
  | (a, None) => unsigned_decimal a
  | (a, Some x) =>
      '(m, k) ← unsigned_decimal a; e ← exponent x; Some (scaled m k e)
  end.

(** A number literal: an optional sign, digits with an optional fraction,
    and an optional exponent.  The result is the sign, an integer [m] and a
    count [k] of fraction digits: the number is [m / 10^k]. *)
Definition decimal (s : string) : option (bool * N * nat) :=
  match s with
  | String c s' =>
      if Ascii.eqb c "-" then '(m, k) ← unsigned_number s'; Some (true, m, k)
      else if Ascii.eqb c "+" then
        '(m, k) ← unsigned_number s'; Some (false, m, k)
      else '(m, k) ← unsigned_number s; Some (false, m, k)
  | "" => None
  end.

(** Text to NUMBER, which is NUMBER(38,0): the fraction is rounded half
    away from zero, and the result must fit 38 digits. *)
Definition number_of_text (s : string) : option Z :=
  match decimal s with
  | Some (neg, m, k) =>
      let n := ((2 * m + 10 ^ N.of_nat k) / (2 * 10 ^ N.of_nat k))%N in
      if (n <? 10 ^ 38)%N
      then Some (if neg : bool then Z.opp (Z.of_N n) else Z.of_N n)
      else None
  | None => None
  end.

Fixpoint pow10 (k : nat) : positive :=
  match k with
  | O => 1%positive
  | S k' => (10 * pow10 k')%positive
  end.

(** The binary64 nearest to an integer, and to a number literal. *)
Definition double_of_Z (n : Z) : double :=
  binary_normalize double_prec double_emax n 0 false.

Definition double_of_text (s : string) : option double :=
  match decimal s with
  | Some (neg, N0, _) => Some (S754_zero neg)
  | Some (neg, Npos p, k) =>
      Some (SFdiv double_prec double_emax
              (S754_finite neg p 0)
              (S754_finite false (pow10 k) 0))
  | None => None
  end.

(** ** File-name patterns *)

Inductive regex : Type :=
| RNone
| REps
| RChar (c : ascii)
| RAny
| RSeq (r1 r2 : regex)
| RAlt (r1 r2 : regex)
| RStar (r : regex).

Fixpoint nullable (r : regex) : bool :=
  match r with
  | RNone => false
  | REps => true
  | RChar _ => false
  | RAny => false
  | RSeq r1 r2 => nullable r1 && nullable r2
  | RAlt r1 r2 => nullable r1 || nullable r2
  | RStar _ => true
  end.

Fixpoint derive (c : ascii) (r : regex) : regex :=
  match r with
  | RNone => RNone
  | REps => RNone
  | RChar c' => if Ascii.eqb c c' then REps else RNone
  | RAny => REps
  | RSeq r1 r2 =>
      if nullable r1
      then RAlt (RSeq (derive c r1) r2) (derive c r2)
      else RSeq (derive c r1) r2
  | RAlt r1 r2 => RAlt (derive c r1) (derive c r2)
  | RStar r' => RSeq (derive c r') (RStar r')
  end.

(** The pattern must match the whole name. *)
Fixpoint matches (r : regex) (s : string) : bool :=
  match s with
  | "" => nullable r
  | String c s' => matches (derive c r) s'
  end.

Definition is_meta (c : ascii) : bool :=
  existsb (Ascii.eqb c)
    ["\"; "["; "]"; "("; ")"; "|"; "+"; "?"; "{"; "}"; "^"; "$"; "*"]%char.

Definition atom (c : ascii) : option regex :=
  if Ascii.eqb c "." then Some RAny
  else if is_meta c then None
  else Some (RChar c).

(** The patterns understood: literal characters, [.], and either of them
    under a star. *)
Fixpoint parse_regex (s : string) : option regex :=
  match s with
  | "" => Some REps
  | String c s' =>
      a ← atom c;
      match s' with
      | String c' s'' =>
          if Ascii.eqb c' "*" then RSeq (RStar a) <$> parse_regex s''
          else RSeq a <$> parse_regex s'
      | "" => Some (RSeq a REps)
      end
  end.

(** ** The catalog and the external storage *)

Record stage : Type := {
  stage_url : string;
  stage_format : option qname
}.

Record table_data : Type := {
  columns : list (string * sqltype);
  rows : list (list value)
}.

(** The warehouse account.  [storage] is the object store outside it: the
    files found under a location, each with its name and its content. *)
Record warehouse : Type := {
  databases : gset string;
  schemas : gset (string * string);
  file_formats : gmap qname file_format;
  stages : gmap qname stage;
  tables : gmap qname table_data;
  storage : string -> list (string * string)
}.

Definition schema_of (n : qname) : string * string := (n.1.1, n.1.2).

(** [CREATE ... name]: the parent must exist; on an existing name the
    statement succeeds and changes nothing under [IF NOT EXISTS], and fails
    without it. *)
Definition create {A : Type} (parent_exists exists_already : bool)
  (if_not_exists : bool) (add : A) (keep : A) : option A :=
  if parent_exists then
    if exists_already then (if if_not_exists then Some keep else None)
    else Some add
  else None.

Definition create_database (ine : bool) (d : string) (w : warehouse)
  : option warehouse :=
  create true (bool_decide (d ∈ databases w)) ine
    {| databases := {[ d ]} ∪ databases w; schemas := schemas w;
       file_formats := file_formats w; stages := stages w;
       tables := tables w; storage := storage w |}
    w.

Definition create_schema (ine : bool) (n : string * string) (w : warehouse)
  : option warehouse :=
  create (bool_decide (n.1 ∈ databases w)) (bool_decide (n ∈ schemas w)) ine
    {| databases := databases w; schemas := {[ n ]} ∪ schemas w;
       file_formats := file_formats w; stages := stages w;
       tables := tables w; storage := storage w |}
    w.

Definition create_file_format (ine : bool) (n : qname) (ff : file_format)
  (w : warehouse) : option warehouse :=
  create (bool_decide (schema_of n ∈ schemas w))
    (bool_decide (is_Some (file_formats w !! n))) ine
    {| databases := databases w; schemas := schemas w;
       file_formats := <[ n := ff ]> (file_formats w); stages := stages w;
       tables := tables w; storage := storage w |}
    w.

Definition format_known (ff : option qname) (w : warehouse) : bool :=
  match ff with
  | Some n => bool_decide (is_Some (file_formats w !! n))
  | None => true
  end.

Definition create_stage (ine : bool) (n : qname) (url : string)
  (ff : option qname) (w : warehouse) : option warehouse :=
  create (bool_decide (schema_of n ∈ schemas w) && format_known ff w)
    (bool_decide (is_Some (stages w !! n))) ine
    {| databases := databases w; schemas := schemas w;
       file_formats := file_formats w;
       stages := <[ n := {| stage_url := url; stage_format := ff |} ]>
                   (stages w);
       tables := tables w; storage := storage w |}
    w.

Definition create_table (ine : bool) (n : qname)
  (cols : list (string * sqltype)) (w : warehouse) : option warehouse :=
  create (bool_decide (schema_of n ∈ schemas w))
    (bool_decide (is_Some (tables w !! n))) ine
    {| databases := databases w; schemas := schemas w;
       file_formats := file_formats w; stages := stages w;
       tables := <[ n := {| columns := cols; rows := [] |} ]> (tables w);
       storage := storage w |}
    w.

(** ** Bulk load *)

(** The pieces of a text between the occurrences of a separator.  The
    escape character and the character after it go into the piece as they
    are: an escaped separator does not cut. *)
Fixpoint split_on (d : ascii) (cur : string) (s : string) : list string :=
  match s with
  | "" => [cur]
  | String c s' =>
      if Ascii.eqb c escape_unenclosed_field then
        match s' with
        | String c' s'' => split_on d (snoc (snoc cur c) c') s''
        | "" => [snoc cur c]
        end
      else if Ascii.eqb c d then cur :: split_on d "" s'
      else split_on d (snoc cur c) s'
  end.

(** The text of a field: the escape characters taken out, each character
    after one standing for itself. *)
Fixpoint unescape (s : string) : string :=
  match s with
  | "" => ""
  | String c s' =>
      if Ascii.eqb c escape_unenclosed_field then
        match s' with
        | String c' s'' => String c' (unescape s'')
        | "" => String c ""
        end
      else String c (unescape s')
  end.

(** The fields that stand for NULL, whatever the type of the column. *)
Definition null_field (ff : file_format) (raw : string) : bool :=
  String.eqb raw "" && empty_field_as_null ff ||
  existsb (String.eqb raw) null_if.

(** The records of a file: its lines, without the empty piece a final line
    break leaves. *)
Definition records (content : string) : list string :=
  let ps := split_on "010" "" content in
  match last ps with
  | Some "" => removelast ps
  | _ => ps
  end.

Definition field_value (ff : file_format) (ty : sqltype) (raw : string)
  : option value :=
  if null_field ff raw then Some VNull
  else
    match ty with
    | STRING => Some (VText (unescape raw))
    | NUMBER => VNumber <$> number_of_text (unescape raw)
    | DOUBLE => VDouble <$> double_of_text (unescape raw)
    end.

(** One field per column, each converted to the column's type; [None] when
    the count differs or a field does not convert. *)
Fixpoint convert_fields (ff : file_format) (tys : list sqltype)
  (raws : list string) : option (list value) :=
  match tys, raws with
  | [], [] => Some []
  | ty :: tys', raw :: raws' =>
      v ← field_value ff ty raw;
      (v ::.) <$> convert_fields ff tys' raws'
  | _, _ => None
  end.

Definition load_record (ff : file_format) (cols : list (string * sqltype))
  (record : string) : option (list value) :=
  convert_fields ff (map snd cols) (split_on (field_delimiter ff) "" record).

(** The records of a file after the header, each loaded or not. *)
Definition load_records (ff : file_format) (cols : list (string * sqltype))
  (content : string) : list (option (list value)) :=
  map (load_record ff cols) (drop (skip_header ff) (records content)).

(** Under [CONTINUE] the records that fail are left out; under
    [ABORT_STATEMENT] one failing record fails the statement. *)
Definition load_file (policy : on_error) (ff : file_format)
  (cols : list (string * sqltype)) (content : string)
  : option (list (list value)) :=
  match policy with
  | CONTINUE => Some (omap id (load_records ff cols content))
  | ABORT_STATEMENT => mapM id (load_records ff cols content)
  end.

(** The staged files a pattern selects. *)
Definition matching_files (re : regex) (files : list (string * string))
  : list (string * string) :=
  filter (fun o => matches re o.1) files.

Definition copy_into (tbl stg : qname) (ff : option qname)
  (pattern : option string) (policy : on_error) (w : warehouse)
  : option warehouse :=
  t ← tables w !! tbl;
  s ← stages w !! stg;
  f ← match (match ff with Some n => Some n | None => stage_format s end) with
      | Some n => file_formats w !! n
      | None => Some default_file_format
      end;
  re ← match pattern with
       | Some p => parse_regex p
       | None => Some (RStar RAny)
       end;
  let files := matching_files re (storage w (stage_url s)) in
  new ← mapM (fun o => load_file policy f (columns t) o.2) files;
  Some {| databases := databases w; schemas := schemas w;
          file_formats := file_formats w; stages := stages w;
          tables := <[ tbl := {| columns := columns t;
                                 rows := (rows t ++ concat new)%list |} ]>
                      (tables w);
          storage := storage w |}.

Definition exec (st : stmt) (w : warehouse) : option warehouse :=
  match st with
  | CreateDatabase ine n => create_database ine n w
  | CreateSchema ine n => create_schema ine n w
  | CreateFileFormat ine n ff => create_file_format ine n ff w
  | CreateStage ine n url ff => create_stage ine n url ff w
  | CreateTable ine n cols => create_table ine n cols w
  | CopyInto tbl stg ff pat pol => copy_into tbl stg ff pat pol w
  end.

(** ** Queries *)

(** CAST.  A conversion that fails is an error of the query ([None]); only
    NULL converts to NULL.  Conversions of numbers to text and of binary64
    to NUMBER are outside the model. *)
Definition cast_value (ty : sqltype) (v : value) : option value :=
  match v with
  | VNull => Some VNull
  | _ =>
      match ty, v with
      | DOUBLE, VNumber n => Some (VDouble (double_of_Z n))
      | DOUBLE, VDouble d => Some (VDouble d)
      | DOUBLE, VText s => VDouble <$> double_of_text s
      | NUMBER, VNumber n => Some (VNumber n)
      | NUMBER, VText s => VNumber <$> number_of_text s
      | STRING, VText s => Some (VText s)
      | _, _ => None
      end
  end.

(** The name a client-side column name resolves to. *)
Definition column_name (n : string) : option string :=
  if is_identifier n then Some (upper n) else None.

Fixpoint eval_column (c : Column) (r : Row) : option value :=
  match c with
  | col n => n' ← column_name n; get_field n' r
  | cast c' to =>
      v ← eval_column c' r;
      ty ← type_of_name (upper to);
      cast_value ty v
  end.

(** [with_column]: the columns that do not carry the new name, then the new
    column. *)
Definition put_column (n : string) (v : value) (r : Row) : Row :=
  (filter (fun f => negb (String.eqb f.1 n)) r ++ [(n, v)])%list.

Definition table_rows (t : table_data) : list Row :=
  map (fun vs => zip (map fst (columns t)) vs) (rows t).

(** The table a name resolves to. *)
Definition find_table (w : warehouse) (name : string) : option table_data :=
  ts ← lex name;
  '(n, ts) ← name3 ts;
  end_of_statement ts n ≫= (fun n => tables w !! n).

(** A column expression compiles against the columns [names] when every
    column it reads is one of them and every type it names is a type. *)
Fixpoint resolves (names : list string) (c : Column) : bool :=
  match c with
  | col n =>
      match column_name n with
      | Some n' => existsb (String.eqb n') names
      | None => false
      end
  | cast c' to =>
      resolves names c' && bool_decide (is_Some (type_of_name (upper to)))
  end.

(** The columns of [with_column], by name. *)
Definition put_name (n : string) (names : list string) : list string :=
  (filter (fun x => negb (String.eqb x n)) names ++ [n])%list.

(** The columns of the result of a plan; [None] when the plan does not
    compile: the table is not there, or a column expression does not
    resolve against the columns it is given. *)
Fixpoint schema (w : warehouse) (df : DataFrame) : option (list string) :=
  match df with
  | table name => t ← find_table w name; Some (map fst (columns t))
  | with_column df' name c =>
      names ← schema w df';
      n ← column_name name;
      if resolves names c then Some (put_name n names) else None
  | limit df' _ => schema w df'
  end.

(** The rows of a plan that compiles. *)
Fixpoint eval_rows (w : warehouse) (df : DataFrame) : option (list Row) :=
  match df with
  | table name => t ← find_table w name; Some (table_rows t)
  | with_column df' name c =>
      rs ← eval_rows w df';
      n ← column_name name;
      mapM (fun r => v ← eval_column c r; Some (put_column n v r)) rs
  | limit df' k => take k <$> eval_rows w df'
  end.

(** A query is compiled, then evaluated. *)
Definition eval (w : warehouse) (df : DataFrame) : option (list Row) :=
  _ ← schema w df; eval_rows w df.

(** ** The session *)

(** A statement answers with a status row, which is not modelled: [_exec]
    drops it. *)
Definition sql (text : string) (w : warehouse)
  : option (list Row * warehouse) :=
  st ← parse_sql text; w' ← exec st w; Some ([], w').

Definition collect (df : DataFrame) (w : warehouse)
  : option (list Row * warehouse) :=
  rs ← eval w df; Some (rs, w).

Definition session : Session :=
  {| state := warehouse; run_sql := sql; run_collect := collect |}.

(** An account with nothing in it, next to a given object store. *)
Definition empty_account (store : string -> list (string * string))
  : warehouse :=
  {| databases := ∅; schemas := ∅; file_formats := ∅; stages := ∅;
     tables := ∅; storage := store |}.

End Snowflake.

(* ===================================================================== *)
(** * Preconditions and observations *)
(* ===================================================================== *)

Import Pipeline Snowflake.

(** The configuration the procedure is meant for (specification, 4.1: the
    values are non-empty and the pattern is a valid regular expression in
    the warehouse's dialect): the five names are identifiers, the location
    and the pattern can stand between quotes as they are, and the pattern is
    one the warehouse understands. *)
Definition valid_config (g : Globals) : bool :=
  is_identifier (DB g) && is_identifier (SCHEMA g) &&
  is_identifier (FILE_FORMAT_NAME g) && is_identifier (STAGE_NAME g) &&
  is_identifier (TABLE_NAME g) &&
  all_chars is_plain (S3_URL g) && all_chars is_plain (COPY_PATTERN g) &&
  bool_decide (is_Some (parse_regex (COPY_PATTERN g))).

(** The qualified names are the ones built from the three parts. *)
Definition qualified (g : Globals) : Prop :=
  FQ_FILE_FORMAT g = fq (DB g) (SCHEMA g) (FILE_FORMAT_NAME g) /\
  FQ_STAGE g = fq (DB g) (SCHEMA g) (STAGE_NAME g) /\
  FQ_TABLE g = fq (DB g) (SCHEMA g) (TABLE_NAME g).

(** The catalog entries the configured names resolve to. *)
Definition database_key (g : Globals) : string := upper (DB g).
Definition schema_key (g : Globals) : string * string :=
  (upper (DB g), upper (SCHEMA g)).
Definition format_key (g : Globals) : qname :=
  (upper (DB g), upper (SCHEMA g), upper (FILE_FORMAT_NAME g)).
Definition stage_key (g : Globals) : qname :=
  (upper (DB g), upper (SCHEMA g), upper (STAGE_NAME g)).
Definition table_key (g : Globals) : qname :=
  (upper (DB g), upper (SCHEMA g), upper (TABLE_NAME g)).

(** The requests of a complete run, in the order of the source: the six
    statements, then the read. *)
Definition plan (g : Globals) : list Request :=
  [ ReqSql (create_database_sql g);
    ReqSql (create_schema_sql g);
    ReqSql (create_file_format_sql g);
    ReqSql (create_stage_sql g);
    ReqSql (create_table_sql g);
    ReqSql (copy_into_sql g);
    ReqCollect (limit (df_transformed g) 10) ].

(** The profile and the columns the statement texts spell out. *)
Definition csv_profile : file_format :=
  {| type := CSV; field_delimiter := ","; skip_header := 1;
     empty_field_as_null := true |}.

Definition orders_columns : list (string * sqltype) :=
  [("ID", STRING); ("AMOUNT", NUMBER); ("PROFIT", NUMBER);
   ("QUANTITY", NUMBER); ("CATEGORY", STRING); ("SUB_CATEGORY", STRING)].

(** What a request is, as the warehouse reads it. *)
Inductive request_kind : Type :=
| CreateDatabaseStatement
| CreateSchemaStatement
| CreateFileFormatStatement
| CreateStageStatement
| CreateTableStatement
| CopyStatement
| Query.

Definition kind_of_stmt (st : stmt) : request_kind :=
  match st with
  | CreateDatabase _ _ => CreateDatabaseStatement
  | CreateSchema _ _ => CreateSchemaStatement
  | CreateFileFormat _ _ _ => CreateFileFormatStatement
  | CreateStage _ _ _ _ => CreateStageStatement
  | CreateTable _ _ _ => CreateTableStatement
  | CopyInto _ _ _ _ _ => CopyStatement
  end.

Definition kind_of (r : Request) : option request_kind :=
  match r with
  | ReqSql text => kind_of_stmt <$> parse_sql text
  | ReqCollect _ => Some Query
  end.

(** A provisioning statement is a [CREATE]; it is an idempotent create when
    it carries [IF NOT EXISTS]. *)
Definition idempotent_create (st : stmt) : bool :=
  match st with
  | CreateDatabase ine _ => ine
  | CreateSchema ine _ => ine
  | CreateFileFormat ine _ _ => ine
  | CreateStage ine _ _ _ => ine
  | CreateTable ine _ _ => ine
  | CopyInto _ _ _ _ _ => false
  end.

(** The objects of an account, by kind and name. *)
Inductive object : Type :=
| Database (name : string)
| Schema (name : string * string)
| FileFormat (name : qname)
| Stage (name : qname)
| Table (name : qname).

Definition objects (w : warehouse) : list object :=
  (map Database (elements (databases w)) ++
   map Schema (elements (schemas w)) ++
   map FileFormat (elements (dom (file_formats w))) ++
   map Stage (elements (dom (stages w))) ++
   map Table (elements (dom (tables w))))%list.

(** Stored rows hold, in each column, a value of the column's type or
    NULL. *)
Definition has_type (ty : sqltype) (v : value) : bool :=
  match v, ty with
  | VNull, _ => true
  | VText _, STRING => true
  | VNumber _, NUMBER => true
  | VDouble _, DOUBLE => true
  | _, _ => false
  end.

Fixpoint row_has_types (tys : list sqltype) (vs : list value) : bool :=
  match tys, vs with
  | [], [] => true
  | ty :: tys', v :: vs' => has_type ty v && row_has_types tys' vs'
  | _, _ => false
  end.

Definition table_ok (t : table_data) : Prop :=
  Forall (fun vs => row_has_types (map snd (columns t)) vs = true) (rows t).

(** The target table is either still to be created or has the shape [main]
    gives it. *)
Definition target_ready (g : Globals) (w : warehouse) : Prop :=
  match tables w !! table_key g with
  | None => True
  | Some t => columns t = orders_columns /\ table_ok t
  end.

(** Changes to [os.environ] while the process runs. *)
Inductive env_change : Type :=
| Setenv (key val : string)
| Unsetenv (key : string).

Definition change (p : Process) (c : env_change) : Process :=
  match c with
  | Setenv k v => setenv k v p
  | Unsetenv k => unsetenv k p
  end.

Definition after (cs : list env_change) (p : Process) : Process :=
  fold_left change cs p.

(** ** The account after the provisioning statements *)

(** An entry that is kept when present and added when absent. *)
Definition ensure {V : Type} (k : qname) (v : V) (m : gmap qname V)
  : gmap qname V :=
  match m !! k with
  | Some _ => m
  | None => <[ k := v ]> m
  end.

Definition configured_stage (g : Globals) : stage :=
  {| stage_url := S3_URL g; stage_format := Some (format_key g) |}.

Definition provisioned (g : Globals) (w : warehouse) : warehouse :=
  {| databases := {[ database_key g ]} ∪ databases w;
     schemas := {[ schema_key g ]} ∪ schemas w;
     file_formats := ensure (format_key g) csv_profile (file_formats w);
     stages := ensure (stage_key g) (configured_stage g) (stages w);
     tables := ensure (table_key g)
                 {| columns := orders_columns; rows := [] |} (tables w);
     storage := storage w |}.

(** The record returned for a stored row of the target table: its six
    fields, then the two derived ones. *)
Definition as_double (v : value) : value :=
  match v with
  | VNumber n => VDouble (double_of_Z n)
  | _ => VNull
  end.

Definition returned_row (vs : list value) : Row :=
  let r := zip (map fst orders_columns) vs in
  (r ++
   [("AMOUNT_NUM", as_double (default VNull (get_field "AMOUNT" r)));
    ("PROFIT_NUM", as_double (default VNull (get_field "PROFIT" r)))])%list.

(** The rows a [CONTINUE] load adds to a table from the files under a
    location: the records that load, of the files the pattern selects. *)
Definition loaded_rows (ff : file_format) (cols : list (string * sqltype))
  (re : regex) (files : list (string * string)) : list (list value) :=
  concat (map (fun o => omap id (load_records ff cols o.2))
            (matching_files re files)).

(** ** The account after a run of [main] *)

(** The target table as the load finds it: the one in place, or the one
    just created. *)
Definition target_table (g : Globals) (w : warehouse) : table_data :=
  default {| columns := orders_columns; rows := [] |}
    (tables w !! table_key g).

(** The rows the run loads: the object store is read at the location of the
    stage in place, through the file format in place. *)
Definition new_rows (g : Globals) (w : warehouse) : list (list value) :=
  match parse_regex (COPY_PATTERN g) with
  | Some re =>
      loaded_rows (default csv_profile (file_formats w !! format_key g))
        (columns (target_table g w)) re
        (storage w
           (stage_url (default (configured_stage g)
                         (stages w !! stage_key g))))
  | None => []
  end.

Definition final_table (g : Globals) (w : warehouse) : table_data :=
  {| columns := columns (target_table g w);
     rows := (rows (target_table g w) ++ new_rows g w)%list |}.

Definition after_main (g : Globals) (w : warehouse) : warehouse :=
  {| databases := databases (provisioned g w);
     schemas := schemas (provisioned g w);
     file_formats := file_formats (provisioned g w);
     stages := stages (provisioned g w);
     tables := <[ table_key g := final_table g w ]>
                 (tables (provisioned g w));
     storage := storage w |}.

(** The two derived columns, row by row. *)
Definition add_amount (r : Row) : option Row :=
  v ← eval_column (cast (col "Amount") "DOUBLE") r;
  Some (put_column "AMOUNT_NUM" v r).

Definition add_profit (r : Row) : option Row :=
  v ← eval_column (cast (col "Profit") "DOUBLE") r;
  Some (put_column "PROFIT_NUM" v r).

(** The read of [main] compiles against a table that has the columns the
    two casts read. *)
Definition sample_compiles (t : table_data) : bool :=
  resolves (map fst (columns t)) (cast (col "Amount") "DOUBLE") &&
  resolves (put_name "AMOUNT_NUM" (map fst (columns t)))
    (cast (col "Profit") "DOUBLE").

(** ** Observations on returned records *)

(** The field [dst] is the binary64 of the number in [src], and NULL when
    [src] is NULL. *)
Definition derived_from (src dst : string) (r : Row) : Prop :=
  (get_field src r = Some VNull /\ get_field dst r = Some VNull) \/
  (exists n : Z, get_field src r = Some (VNumber n) /\
                 get_field dst r = Some (VDouble (double_of_Z n))).

Definition double_or_null (v : option value) : Prop :=
  v = Some VNull \/ exists d : double, v = Some (VDouble d).

(** ** Concrete inputs *)

(** A staged file holding the row of the specification's example, amount
    [12.5] with profit [abc], under its header line. *)
Definition example_file : string :=
  "ID,Amount,Profit,Quantity,Category,Sub_Category" +:+ LF +:+
  "B-25601,12.5,abc,2,Furniture,Chairs" +:+ LF.

(** A staged file with one row that loads. *)
Definition orders_file : string :=
  "ID,Amount,Profit,Quantity,Category,Sub_Category" +:+ LF +:+
  "B-25602,100,-20,3,Clothing,Saree" +:+ LF.


Definition orders_store (url : string) : list (string * string) :=
  [("Orders_2018.csv", orders_file); ("Details_2018.csv", orders_file)].

(** The binary64 12.5. *)
Definition twelve_and_a_half : double :=
  S754_finite false 7036874417766400 (-49).




(** ** Sessions and traces *)

(** The session [S] answering its statements with other rows: [status text
    s] in place of the rows [S] gives.  States, failures and the answers to
    reads are those of [S]. *)
Definition with_status_rows (S : Session)
  (status : string -> state S -> list Row) : Session :=
  {| state := state S;
     run_sql := fun text s =>
       match run_sql S text s with
       | Some (_, s') => Some (status text s, s')
       | None => None
       end;
     run_collect := run_collect S |}.

(** The state a list of requests leaves when every one of them is answered,
    each on the state left by the one before. *)
Fixpoint answer_all (S : Session) (rs : list Request) (s : state S)
  : option (state S) :=
  match rs with
  | [] => Some s
  | r :: rs' =>
      match serve S r s with
      | Some (_, s') => answer_all S rs' s'
      | None => None
      end
  end.

(** The six statements of [main], lines 37-88. *)
Definition statements (g : Globals) : list Request :=
  [ ReqSql (create_database_sql g);
    ReqSql (create_schema_sql g);
    ReqSql (create_file_format_sql g);
    ReqSql (create_stage_sql g);
    ReqSql (create_table_sql g);
    ReqSql (copy_into_sql g) ].

(** ** The configuration *)

(** The environment variables the module body reads, each with the default
    of its [os.getenv] call (lines 11-17). *)
Definition variables : list (string * string) :=
  [("SF_DB", "DATA_PIPELINE_DB"); ("SF_SCHEMA", "CSV_FILES");
   ("SF_FILE_FORMAT", "csv_format"); ("SF_STAGE", "aws_stage");
   ("SF_TABLE", "ORDERS"); ("S3_URL", "s3://bucketsnowflakes3/");
   ("COPY_PATTERN", ".*Order.*")].

(** ** Repeated runs *)

(** The account after [n] runs of [main], one after the other. *)
Fixpoint run_times (g : Globals) (n : nat) (w : warehouse) : warehouse :=
  match n with
  | O => w
  | S n' => final (run session (main g) (run_times g n' w))
  end.

(** ** Records and file names *)

(** The number of occurrences of a character in a text. *)
Fixpoint occurrences (c : ascii) (s : string) : nat :=
  match s with
  | "" => O
  | String c' s' =>
      if Ascii.eqb c' c then S (occurrences c s') else occurrences c s'
  end.

(** Some character of a text satisfies [p]. *)
Fixpoint some_char (p : ascii -> bool) (s : string) : bool :=
  match s with
  | "" => false
  | String c s' => p c || some_char p s'
  end.

Definition is_escape (c : ascii) : bool :=
  Ascii.eqb c escape_unenclosed_field.

(** The characters a number literal is made of. *)
Definition number_char (c : ascii) : bool :=
  is_digit c || Ascii.eqb c "+" || Ascii.eqb c "-" || Ascii.eqb c "." ||
  is_exponent_mark c.

(** A letter no number holds: any letter but the mark of an exponent. *)
Definition is_foreign (c : ascii) : bool :=
  is_letter c && negb (is_exponent_mark c).

(** A field that fits a NUMBER column under the profile of [main]: empty,
    the null marker, or a number literal within 38 digits. *)
Definition numeric_field (raw : string) : Prop :=
  raw = "" \/ raw = "\N" \/ is_Some (number_of_text raw).

(** A character that stands for itself in a pattern. *)
Definition is_literal (c : ascii) : bool :=
  negb (Ascii.eqb c ".") && negb (is_meta c).

(** The text [sub] occurs in [s]. *)
Definition occurs_in (sub s : string) : Prop :=
  exists a b : string, s = a +:+ sub +:+ b.

(** The pattern that reads the characters of [lit] one after the other,
    then goes on as [k]. *)
Fixpoint literally (lit : string) (k : regex) : regex :=
  match lit with
  | "" => k
  | String c lit' => RSeq (RChar c) (literally lit' k)
  end.

(* ===================================================================== *)
(** * Proofs *)
(* ===================================================================== *)

#[local] Arguments String.append !_ _ : simpl nomatch.
#[local] Arguments identifier : simpl never.
#[local] Arguments name2 : simpl never.
#[local] Arguments name3 : simpl never.
#[local] Arguments format_name : simpl never.
#[local] Arguments clause : simpl never.

(** ** Text *)

Lemma append_assoc (a b c : string) : (a +:+ b) +:+ c = a +:+ (b +:+ c).
Proof. induction a as [|x a IH]; simpl; [reflexivity | f_equal; exact IH]. Qed.

Lemma append_empty_r (a : string) : a +:+ "" = a.
Proof. induction a as [|x a IH]; simpl; [reflexivity | f_equal; exact IH]. Qed.

Lemma lex_run_app (a b : string) (st : lex_state) :
  lex_run st (a +:+ b) = lex_run st a ≫= (fun st' => lex_run st' b).
Proof.
  revert st. induction a as [|c a IH]; intros st; simpl; [reflexivity|].
  destruct (lex_step st c) as [st'|]; simpl; [apply IH | reflexivity].
Qed.

Lemma lex_run_app_some (a b : string) (st st' : lex_state) :
  lex_run st a = Some st' -> lex_run st (a +:+ b) = lex_run st' b.
Proof. intros H. now rewrite lex_run_app, H. Qed.

Lemma lex_run_word (w acc : string) (ts : list token) :
  all_chars is_word_char w = true ->
  lex_run (ts, InWord acc) w = Some (ts, InWord (acc +:+ w)).
Proof.
  revert acc. induction w as [|c w IH]; intros acc H; simpl in *.
  - now rewrite append_empty_r.
  - apply andb_prop in H as [Hc Hw]. rewrite Hc. simpl. rewrite IH by exact Hw.
    unfold snoc. now rewrite append_assoc.
Qed.

Lemma first_char_starts_word (c : ascii) (ts : list token) :
  is_letter c || Ascii.eqb c "_" = true ->
  lex_start ts c = Some (ts, InWord (String c "")).
Proof.
  destruct c as [[] [] [] [] [] [] [] []]; intros H; try discriminate H;
    reflexivity.
Qed.

Lemma lex_run_identifier (w : string) (ts : list token) :
  is_identifier w = true -> lex_run (ts, Idle) w = Some (ts, InWord w).
Proof.
  destruct w as [|c w]; [discriminate|]. simpl.
  intros H. apply andb_prop in H as [Hc Hw]. apply andb_prop in Hw as [_ Hw].
  rewrite (first_char_starts_word c ts Hc). simpl.
  now rewrite lex_run_word.
Qed.

Lemma lex_run_plain (q acc : string) (ts : list token) :
  all_chars is_plain q = true ->
  lex_run (ts, InQuote acc) q = Some (ts, InQuote (acc +:+ q)).
Proof.
  revert acc. induction q as [|c q IH]; intros acc H; simpl in *.
  - now rewrite append_empty_r.
  - apply andb_prop in H as [Hc Hq].
    assert (Ascii.eqb c "'" = false) as ->.
    { unfold is_plain in Hc. apply andb_prop in Hc as [Hc _].
      now apply negb_true_iff in Hc. }
    rewrite Hc. simpl. rewrite IH by exact Hq. unfold snoc.
    now rewrite append_assoc.
Qed.

Lemma identifier_word (w : string) (ts : list token) :
  is_identifier w = true -> identifier (TWord w :: ts) = Some (upper w, ts).
Proof. intros H. unfold identifier. now rewrite H. Qed.

Lemma name2_words (a b : string) (ts : list token) :
  is_identifier a = true -> is_identifier b = true ->
  name2 (TWord a :: TSym "." :: TWord b :: ts) = Some (upper a, upper b, ts).
Proof.
  intros Ha Hb. unfold name2, identifier. rewrite Ha. simpl. now rewrite Hb.
Qed.

Lemma name3_words (a b c : string) (ts : list token) :
  is_identifier a = true -> is_identifier b = true -> is_identifier c = true ->
  name3 (TWord a :: TSym "." :: TWord b :: TSym "." :: TWord c :: ts)
  = Some ((upper a, upper b, upper c), ts).
Proof.
  intros Ha Hb Hc. unfold name3. rewrite name2_words by assumption.
  unfold identifier. simpl. now rewrite Hc.
Qed.

Lemma format_name_tokens (a b c : string) (ts : list token) :
  is_identifier a = true -> is_identifier b = true -> is_identifier c = true ->
  format_name
    (TSym "(" :: TWord "FORMAT_NAME" :: TSym "=" :: TWord a :: TSym "."
     :: TWord b :: TSym "." :: TWord c :: TSym ")" :: ts)
  = Some ((upper a, upper b, upper c), ts).
Proof.
  intros Ha Hb Hc. unfold format_name. simpl.
  now rewrite name3_words by assumption.
Qed.

Lemma file_format_clause (a b c : string) (ts : list token) :
  is_identifier a = true -> is_identifier b = true -> is_identifier c = true ->
  clause "FILE_FORMAT" format_name
    (TWord "FILE_FORMAT" :: TSym "=" :: TSym "(" :: TWord "FORMAT_NAME"
     :: TSym "=" :: TWord a :: TSym "." :: TWord b :: TSym "." :: TWord c
     :: TSym ")" :: ts)
  = Some (Some (upper a, upper b, upper c), ts).
Proof.
  intros Ha Hb Hc. unfold clause. simpl.
  now rewrite format_name_tokens by assumption.
Qed.

Ltac lex_segment :=
  match goal with
  | |- context [lex_run (?ts, Idle) (String.append ?a ?b)] =>
      is_var a;
      rewrite (lex_run_app_some a b (ts, Idle) _
                 (lex_run_identifier a ts ltac:(assumption)))
  | |- context [lex_run (?ts, InQuote ?q) (String.append ?a ?b)] =>
      is_var a;
      rewrite (lex_run_app_some a b (ts, InQuote q) _
                 (lex_run_plain a q ts ltac:(assumption)))
  | |- context [lex_run ?st (String.append ?a ?b)] =>
      let v := eval vm_compute in (lex_run st a) in
      match v with
      | Some ?st' =>
          rewrite (lex_run_app_some a b st st' ltac:(vm_compute; reflexivity))
      end
  end.

Ltac lex_last :=
  match goal with
  | |- context [lex_run (?ts, Idle) ?a] =>
      is_var a; rewrite (lex_run_identifier a ts) by assumption
  | |- context [lex_run ?st ?s] =>
      let v := eval vm_compute in (lex_run st s) in
      replace (lex_run st s) with v by (vm_compute; reflexivity)
  end.

Ltac split_config g :=
  destruct g as [db sc ff st tb url pat fqf fqs fqt];
  match goal with
  | Hq : qualified _, Hv : valid_config _ = true |- _ =>
      destruct Hq as (Hq1 & Hq2 & Hq3);
      cbv beta iota delta [FQ_FILE_FORMAT FQ_STAGE FQ_TABLE DB SCHEMA
        FILE_FORMAT_NAME STAGE_NAME TABLE_NAME] in Hq1, Hq2, Hq3;
      subst fqf fqs fqt;
      unfold valid_config in Hv; simpl in Hv;
      repeat (apply andb_prop in Hv as [Hv ?]);
      match goal with
      | H : bool_decide _ = true |- _ => apply bool_decide_eq_true_1 in H
      end
  end.

Lemma valid_parts (g : Globals) :
  valid_config g = true ->
  is_identifier (DB g) = true /\ is_identifier (SCHEMA g) = true /\
  is_identifier (FILE_FORMAT_NAME g) = true /\
  is_identifier (STAGE_NAME g) = true /\
  is_identifier (TABLE_NAME g) = true /\
  all_chars is_plain (S3_URL g) = true /\
  all_chars is_plain (COPY_PATTERN g) = true /\
  is_Some (parse_regex (COPY_PATTERN g)).
Proof.
  unfold valid_config. intros Hv.
  repeat (apply andb_prop in Hv as [Hv ?]).
  repeat split; try assumption. eapply bool_decide_eq_true_1; eassumption.
Qed.

Ltac lex_text :=
  cbv beta iota delta [parse_sql lex create_database_sql create_schema_sql
    create_file_format_sql create_stage_sql create_table_sql copy_into_sql
    line line12 LF fq FQ_FILE_FORMAT FQ_STAGE FQ_TABLE DB SCHEMA
    FILE_FORMAT_NAME STAGE_NAME TABLE_NAME S3_URL COPY_PATTERN
    database_key schema_key format_key stage_key table_key];
  rewrite ?append_assoc;
  repeat lex_segment; lex_last;
  cbv beta iota delta [mbind option_bind lex_end].

Section Statements.
Variable g : Globals.
Hypothesis Hq : qualified g.
Hypothesis Hv : valid_config g = true.

Lemma parse_create_database :
  parse_sql (create_database_sql g)
  = Some (CreateDatabase true (database_key g)).
Proof using All.
  split_config g. lex_text. simpl.
  now rewrite identifier_word by assumption.
Qed.

Lemma parse_create_schema :
  parse_sql (create_schema_sql g) = Some (CreateSchema true (schema_key g)).
Proof using All.
  split_config g. lex_text. simpl.
  now rewrite name2_words by assumption.
Qed.

Lemma parse_create_file_format :
  parse_sql (create_file_format_sql g)
  = Some (CreateFileFormat true (format_key g) csv_profile).
Proof using All.
  split_config g. lex_text. simpl.
  now rewrite name3_words by assumption.
Qed.

Lemma parse_create_stage :
  parse_sql (create_stage_sql g)
  = Some (CreateStage true (stage_key g) (S3_URL g) (Some (format_key g))).
Proof using All.
  split_config g. lex_text. simpl.
  rewrite name3_words by assumption. simpl.
  now rewrite file_format_clause by assumption.
Qed.

Lemma parse_create_table :
  parse_sql (create_table_sql g)
  = Some (CreateTable true (table_key g) orders_columns).
Proof using All.
  split_config g. lex_text. simpl.
  now rewrite name3_words by assumption.
Qed.

Lemma parse_copy_into :
  parse_sql (copy_into_sql g)
  = Some (CopyInto (table_key g) (stage_key g) (Some (format_key g))
            (Some (COPY_PATTERN g)) CONTINUE).
Proof using All.
  split_config g. lex_text. simpl.
  unfold parse_copy. simpl.
  rewrite name3_words by assumption. simpl.
  rewrite name3_words by assumption. simpl.
  rewrite file_format_clause by assumption. simpl.
  unfold clause. simpl. reflexivity.
Qed.
End Statements.


Lemma lex_table_name (g : Globals) :
  qualified g -> valid_config g = true ->
  lex (FQ_TABLE g)
  = Some [TWord (DB g); TSym "."; TWord (SCHEMA g); TSym ".";
          TWord (TABLE_NAME g)].
Proof.
  intros Hq Hv. split_config g. lex_text. reflexivity.
Qed.

(** ** Runs *)

Lemma run_main_plan (S : Session) (g : Globals) (s : state S) :
  run S (main g) s = issue_all S (plan g) [] s.
Proof.
  unfold main, plan, _exec. simpl.
  repeat (match goal with
          | |- context [run_sql S ?t ?s] =>
              destruct (run_sql S t s) as [[? ?]|]; [|reflexivity]
          end).
  reflexivity.
Qed.

(** The requests issued are an initial segment of the requests to issue, and
    the whole of them when the run returns. *)
Lemma issue_all_log (S : Session) (rs : list Request) (last : list Row)
  (s : state S) :
  exists n : nat,
    issued (issue_all S rs last s) = take n rs /\ (n <= length rs)%nat /\
    (rs <> [] -> 1 <= n)%nat /\
    (is_Some (returned (issue_all S rs last s)) -> n = length rs).
Proof.
  revert last s. induction rs as [|r rs IH]; intros last s; simpl.
  - exists 0%nat. repeat split; eauto; try lia. congruence.
  - destruct (serve S r s) as [[rows s']|].
    + destruct (IH rows s') as (n & Hlog & Hle & _ & Hsome).
      exists (Datatypes.S n). simpl. repeat split; try lia.
      * now rewrite Hlog.
      * intros H. f_equal. now apply Hsome.
    + exists 1%nat. simpl. split; [now destruct rs|].
      repeat split; try lia. intros [? H]; discriminate H.
Qed.

Lemma issue_all_total (S : Session) (rs : list Request) (last : list Row)
  (s : state S) :
  (forall r s', is_Some (serve S r s')) ->
  issued (issue_all S rs last s) = rs /\
  is_Some (returned (issue_all S rs last s)).
Proof.
  intros Hserve. revert last s.
  induction rs as [|r rs IH]; intros last s; simpl; [eauto|].
  destruct (Hserve r s) as [[rows s'] ->].
  destruct (IH rows s') as [Hlog Hout]. simpl. now rewrite Hlog.
Qed.

Lemma issue_step (S : Session) (r : Request) (rs : list Request)
  (last rows : list Row) (s s' : state S) :
  serve S r s = Some (rows, s') ->
  issue_all S (r :: rs) last s = sent r (issue_all S rs rows s').
Proof. intros H. simpl. now rewrite H. Qed.

(** The last request of a run that returns was served, its rows are the
    result and the state it left is the final one. *)
Lemma issue_all_last (S : Session) (rs : list Request) (r : Request)
  (last rows : list Row) (s : state S) :
  returned (issue_all S (rs ++ [r]) last s) = Some rows ->
  exists s0,
    serve S r s0 = Some (rows, final (issue_all S (rs ++ [r]) last s)).
Proof.
  revert last s. induction rs as [|r0 rs IH]; intros last s; simpl.
  - destruct (serve S r s) as [[rows0 s0]|] eqn:E; simpl; [|discriminate].
    intros [= <-]. eauto.
  - destruct (serve S r0 s) as [[rows0 s0]|]; simpl; [|discriminate].
    apply IH.
Qed.

Lemma sql_step (text : string) (st : stmt) (w w' : warehouse) :
  parse_sql text = Some st -> exec st w = Some w' ->
  serve session (ReqSql text) w = Some ([], w').
Proof. intros Hp He. simpl. unfold sql. now rewrite Hp; simpl; rewrite He. Qed.

(** ** Provisioning *)

Lemma create_database_ensures (d : string) (w : warehouse) :
  create_database true d w
  = Some {| databases := {[ d ]} ∪ databases w; schemas := schemas w;
            file_formats := file_formats w; stages := stages w;
            tables := tables w; storage := storage w |}.
Proof.
  destruct w as [dbs scs ffs sts tbs sto].
  unfold create_database, create; simpl.
  case_bool_decide as Hd; [|reflexivity].
  do 2 f_equal. symmetry. now apply subseteq_union_1_L, singleton_subseteq_l.
Qed.

Lemma create_schema_ensures (n : string * string) (w : warehouse) :
  n.1 ∈ databases w ->
  create_schema true n w
  = Some {| databases := databases w; schemas := {[ n ]} ∪ schemas w;
            file_formats := file_formats w; stages := stages w;
            tables := tables w; storage := storage w |}.
Proof.
  destruct w as [dbs scs ffs sts tbs sto]; simpl.
  intros Hd. unfold create_schema, create; simpl.
  rewrite bool_decide_eq_true_2 by exact Hd.
  case_bool_decide as Hn; [|reflexivity].
  do 2 f_equal. symmetry. now apply subseteq_union_1_L, singleton_subseteq_l.
Qed.

Lemma ensure_lookup {V : Type} (k : qname) (v : V) (m : gmap qname V) :
  ensure k v m !! k = Some (default v (m !! k)).
Proof.
  unfold ensure. destruct (m !! k) eqn:E; simpl; [exact E|].
  apply lookup_insert_eq.
Qed.

Lemma ensure_dom {V : Type} (k : qname) (v : V) (m : gmap qname V) :
  dom (ensure k v m) = {[ k ]} ∪ dom m.
Proof.
  unfold ensure. destruct (m !! k) eqn:E.
  - apply elem_of_dom_2 in E. symmetry.
    now apply subseteq_union_1_L, singleton_subseteq_l.
  - apply dom_insert_L.
Qed.

Lemma create_ensures {V : Type} (k : qname) (v : V) (m : gmap qname V)
  (w add : warehouse) (build : gmap qname V -> warehouse) :
  build m = w -> add = build (<[ k := v ]> m) ->
  create true (bool_decide (is_Some (m !! k))) true add w
  = Some (build (ensure k v m)).
Proof.
  intros Hw ->. unfold create, ensure. case_bool_decide as H.
  - destruct H as [x ->]. now rewrite Hw.
  - destruct (m !! k) eqn:E; [exfalso; eauto|reflexivity].
Qed.

Lemma create_file_format_ensures (n : qname) (ff : file_format)
  (w : warehouse) :
  schema_of n ∈ schemas w ->
  create_file_format true n ff w
  = Some {| databases := databases w; schemas := schemas w;
            file_formats := ensure n ff (file_formats w); stages := stages w;
            tables := tables w; storage := storage w |}.
Proof.
  intros Hs. unfold create_file_format.
  rewrite bool_decide_eq_true_2 by exact Hs.
  apply (create_ensures n ff (file_formats w) w _
           (fun m => {| databases := databases w; schemas := schemas w;
                        file_formats := m; stages := stages w;
                        tables := tables w; storage := storage w |}));
    [now destruct w | reflexivity].
Qed.

Lemma create_stage_ensures (n : qname) (url : string) (f : qname)
  (w : warehouse) :
  schema_of n ∈ schemas w -> is_Some (file_formats w !! f) ->
  create_stage true n url (Some f) w
  = Some {| databases := databases w; schemas := schemas w;
            file_formats := file_formats w;
            stages := ensure n {| stage_url := url; stage_format := Some f |}
                        (stages w);
            tables := tables w; storage := storage w |}.
Proof.
  intros Hs Hf. unfold create_stage, format_known.
  rewrite !bool_decide_eq_true_2 by assumption. simpl.
  apply (create_ensures n _ (stages w) w _
           (fun m => {| databases := databases w; schemas := schemas w;
                        file_formats := file_formats w; stages := m;
                        tables := tables w; storage := storage w |}));
    [now destruct w | reflexivity].
Qed.

Lemma create_table_ensures (n : qname) (cols : list (string * sqltype))
  (w : warehouse) :
  schema_of n ∈ schemas w ->
  create_table true n cols w
  = Some {| databases := databases w; schemas := schemas w;
            file_formats := file_formats w; stages := stages w;
            tables := ensure n {| columns := cols; rows := [] |} (tables w);
            storage := storage w |}.
Proof.
  intros Hs. unfold create_table.
  rewrite bool_decide_eq_true_2 by exact Hs.
  apply (create_ensures n _ (tables w) w _
           (fun m => {| databases := databases w; schemas := schemas w;
                        file_formats := file_formats w; stages := stages w;
                        tables := m; storage := storage w |}));
    [now destruct w | reflexivity].
Qed.

Lemma create_inv {A : Type} (parent exists_already : bool) (add keep w : A) :
  create parent exists_already true add keep = Some w ->
  parent = true /\
  (exists_already = true /\ w = keep \/ exists_already = false /\ w = add).
Proof.
  unfold create. destruct parent, exists_already; intros [= <-]; auto.
Qed.

Lemma create_present {A : Type} (parent exists_already : bool) (add keep : A) :
  parent = true -> exists_already = true ->
  create parent exists_already true add keep = Some keep.
Proof. now intros -> ->. Qed.

(** An idempotent create that has just run succeeds again and changes
    nothing. *)
Lemma exec_again (st : stmt) (w0 w1 : warehouse) :
  idempotent_create st = true ->
  exec st w0 = Some w1 -> exec st w1 = Some w1.
Proof.
  destruct st as [ine d|ine n|ine n ff|ine n url ff|ine n cols|];
    simpl; intros Hi; try discriminate Hi; subst ine; intros H;
    unfold create_database, create_schema, create_file_format, create_stage,
      create_table in *;
    apply create_inv in H as [Hp [[He ->]|[He ->]]];
    apply create_present; try assumption;
    rewrite ?andb_true_iff, ?bool_decide_eq_true in *; simpl.
  - apply elem_of_union_l, elem_of_singleton_2. reflexivity.
  - apply elem_of_union_l, elem_of_singleton_2. reflexivity.
  - rewrite lookup_insert_eq. eauto.
  - rewrite lookup_insert_eq. eauto.
  - rewrite lookup_insert_eq. eauto.
Qed.

(** ** Bulk load *)

Lemma mapM_total {A B : Type} (f : A -> option B) (h : A -> B) (l : list A) :
  (forall x, f x = Some (h x)) -> mapM f l = Some (map h l).
Proof.
  intros H. induction l as [|x l IH]; simpl; [reflexivity|].
  now rewrite H, IH.
Qed.

Lemma copy_into_continue (tk sk fk : qname) (pat : string) (w : warehouse)
  (t : table_data) (s : stage) (f : file_format) (re : regex) :
  tables w !! tk = Some t -> stages w !! sk = Some s ->
  file_formats w !! fk = Some f -> parse_regex pat = Some re ->
  copy_into tk sk (Some fk) (Some pat) CONTINUE w
  = Some {| databases := databases w; schemas := schemas w;
            file_formats := file_formats w; stages := stages w;
            tables :=
              <[ tk := {| columns := columns t;
                          rows := (rows t ++
                                   loaded_rows f (columns t) re
                                     (storage w (stage_url s)))%list |} ]>
                (tables w);
            storage := storage w |}.
Proof.
  intros Ht Hs Hf Hre. unfold copy_into. rewrite Ht, Hs. simpl.
  rewrite Hf, Hre. simpl.
  rewrite (mapM_total _ (fun o => omap id (load_records f (columns t) o.2)))
    by reflexivity.
  reflexivity.
Qed.

Lemma matching_files_spec (re : regex) (files : list (string * string))
  (o : string * string) :
  o ∈ matching_files re files <-> o ∈ files /\ matches re o.1 = true.
Proof.
  unfold matching_files. rewrite list_elem_of_filter, Is_true_true. tauto.
Qed.

Lemma loaded_rows_spec (ff : file_format) (cols : list (string * sqltype))
  (re : regex) (files : list (string * string)) (vs : list value) :
  vs ∈ loaded_rows ff cols re files <->
  exists name content record,
    (name, content) ∈ files /\ matches re name = true /\
    record ∈ drop (skip_header ff) (records content) /\
    load_record ff cols record = Some vs.
Proof.
  unfold loaded_rows. rewrite list_elem_of_In, in_concat. split.
  - intros (l & Hl & Hvs). apply in_map_iff in Hl as ([name content] & <- & Ho).
    apply list_elem_of_In, matching_files_spec in Ho as [Ho Hm].
    apply list_elem_of_In, list_elem_of_omap in Hvs as (r & Hr & Hid).
    simpl in Hid. subst r. unfold load_records in Hr.
    apply list_elem_of_In, in_map_iff in Hr as (record & Hrec & Hin).
    exists name, content, record. simpl in *.
    repeat split; try assumption. now apply list_elem_of_In.
  - intros (name & content & record & Ho & Hm & Hin & Hrec).
    exists (omap id (load_records ff cols content)). split.
    + apply in_map_iff. exists (name, content). split; [reflexivity|].
      apply list_elem_of_In, matching_files_spec. now split.
    + apply list_elem_of_In, list_elem_of_omap. exists (Some vs).
      split; [|reflexivity]. unfold load_records.
      apply list_elem_of_In, in_map_iff. exists record.
      split; [exact Hrec | now apply list_elem_of_In].
Qed.

Lemma copy_into_abort (tk sk fk : qname) (pat : string) (w : warehouse)
  (t : table_data) (s : stage) (f : file_format) (re : regex) :
  tables w !! tk = Some t -> stages w !! sk = Some s ->
  file_formats w !! fk = Some f -> parse_regex pat = Some re ->
  (exists name content record,
      (name, content) ∈ storage w (stage_url s) /\ matches re name = true /\
      record ∈ drop (skip_header f) (records content) /\
      load_record f (columns t) record = None) ->
  copy_into tk sk (Some fk) (Some pat) ABORT_STATEMENT w = None.
Proof.
  intros Ht Hs Hf Hre (name & content & record & Ho & Hm & Hin & Hrec).
  unfold copy_into. rewrite Ht, Hs. simpl. rewrite Hf, Hre. simpl.
  replace (mapM _ _) with (@None (list (list (list value)))); [reflexivity|].
  symmetry. apply mapM_None_2, Exists_exists. exists (name, content).
  split; [apply matching_files_spec; now split|]. simpl.
  apply mapM_None_2, Exists_exists. exists None. split; [|reflexivity].
  unfold load_records. apply list_elem_of_fmap. exists record.
  split; [now symmetry | exact Hin].
Qed.

(** Loaded rows have the types of the columns. *)
Lemma field_value_typed (ff : file_format) (ty : sqltype) (raw : string)
  (v : value) :
  field_value ff ty raw = Some v -> has_type ty v = true.
Proof.
  unfold field_value. destruct (null_field ff raw).
  - intros [= <-]. reflexivity.
  - destruct ty; simpl.
    + intros [= <-]. reflexivity.
    + destruct (number_of_text _); intros [= <-]. reflexivity.
    + destruct (double_of_text _); intros [= <-]. reflexivity.
Qed.

Lemma convert_fields_typed (ff : file_format) (tys : list sqltype)
  (raws : list string) (vs : list value) :
  convert_fields ff tys raws = Some vs -> row_has_types tys vs = true.
Proof.
  revert raws vs. induction tys as [|ty tys IH]; intros [|raw raws] vs; simpl;
    try discriminate.
  - intros [= <-]. reflexivity.
  - destruct (field_value ff ty raw) as [v|] eqn:Ev; [|discriminate]. simpl.
    destruct (convert_fields ff tys raws) as [vs'|] eqn:Evs; [|discriminate].
    intros [= <-]. simpl.
    now rewrite (field_value_typed _ _ _ _ Ev), (IH _ _ Evs).
Qed.

Lemma loaded_rows_typed (ff : file_format) (cols : list (string * sqltype))
  (re : regex) (files : list (string * string)) :
  Forall (fun vs => row_has_types (map snd cols) vs = true)
    (loaded_rows ff cols re files).
Proof.
  apply Forall_forall. intros vs Hvs.
  apply loaded_rows_spec in Hvs as (name & content & record & _ & _ & _ & H).
  now apply convert_fields_typed in H.
Qed.

(** ** Fields *)



Lemma all_chars_app (p : ascii -> bool) (a b : string) :
  all_chars p (a +:+ b) = all_chars p a && all_chars p b.
Proof.
  induction a as [|c a IH]; simpl; [reflexivity|].
  now rewrite IH, andb_assoc.
Qed.

Lemma all_chars_impl (p q : ascii -> bool) (s : string) :
  (forall c, p c = true -> q c = true) ->
  all_chars p s = true -> all_chars q s = true.
Proof.
  intros Hpq. induction s as [|c s IH]; simpl; [reflexivity|].
  intros H. apply andb_prop in H as [Hc Hs]. now rewrite (Hpq c Hc), IH.
Qed.

Lemma break_spec (p : ascii -> bool) (s a : string) (b : option string) :
  break p s = (a, b) ->
  match b with
  | None => s = a
  | Some b' => exists c, p c = true /\ s = a +:+ String c b'
  end.
Proof.
  revert a b. induction s as [|c s IH]; intros a b; simpl.
  - now intros [= <- <-].
  - destruct (p c) eqn:Hc.
    + intros [= <- <-]. exists c. auto.
    + destruct (break p s) as [a' b'] eqn:E. intros [= <- <-].
      specialize (IH a' b' eq_refl). destruct b' as [b'|].
      * destruct IH as (c' & Hc' & ->). exists c'. auto.
      * now rewrite IH.
Qed.

Lemma digits_from_chars (acc : N) (s : string) :
  is_Some (digits_from acc s) -> all_chars is_digit s = true.
Proof.
  revert acc. induction s as [|c s IH]; intros acc; simpl; [reflexivity|].
  unfold digit_value. destruct (is_digit c); simpl; [apply IH|].
  intros [? H]. discriminate H.
Qed.

Lemma digits_chars (s : string) :
  is_Some (digits s) -> all_chars is_digit s = true.
Proof. destruct s; [reflexivity | apply digits_from_chars]. Qed.

Lemma digit_number_char (c : ascii) :
  is_digit c = true -> number_char c = true.
Proof. unfold number_char. now intros ->. Qed.

Lemma digits_number_chars (s : string) :
  is_Some (digits s) -> all_chars number_char s = true.
Proof.
  intros H. apply (all_chars_impl is_digit); [apply digit_number_char|].
  now apply digits_chars.
Qed.

Lemma bind_is_Some {A B : Type} (m : option A) (f : A -> option B) :
  is_Some (m ≫= f) -> exists a, m = Some a /\ is_Some (f a).
Proof. destruct m as [a|]; simpl; [eauto | intros [? H]; discriminate H]. Qed.

Lemma unsigned_decimal_chars (s : string) :
  is_Some (unsigned_decimal s) -> all_chars number_char s = true.
Proof.
  unfold unsigned_decimal.
  destruct (break (fun c => Ascii.eqb c ".") s) as [i [f|]] eqn:E;
    apply break_spec in E; intros H;
    apply bind_is_Some in H as (m & Hm & _).
  - destruct E as (c & Hc & ->). apply Ascii.eqb_eq in Hc as ->.
    assert (all_chars number_char (i +:+ f) = true) as Hif
      by (apply digits_number_chars; rewrite Hm; eauto).
    rewrite all_chars_app in Hif |- *. apply andb_prop in Hif as [-> Hf].
    simpl. exact Hf.
  - subst s. apply digits_number_chars. rewrite Hm. eauto.
Qed.

Lemma exponent_chars (s : string) :
  is_Some (exponent s) -> all_chars number_char s = true.
Proof.
  destruct s as [|c s]; [intros [? H]; discriminate H|]. cbn [exponent].
  destruct (Ascii.eqb_spec c "-") as [->|_];
    [|destruct (Ascii.eqb_spec c "+") as [->|_]];
    intros H; apply bind_is_Some in H as (n & Hn & _).
  - cbn [all_chars]. apply digits_number_chars. rewrite Hn. eauto.
  - cbn [all_chars]. apply digits_number_chars. rewrite Hn. eauto.
  - apply digits_number_chars. rewrite Hn. eauto.
Qed.

Lemma unsigned_number_chars (s : string) :
  is_Some (unsigned_number s) -> all_chars number_char s = true.
Proof.
  unfold unsigned_number.
  destruct (break is_exponent_mark s) as [a [x|]] eqn:E;
    apply break_spec in E; intros H.
  - destruct E as (c & Hc & ->).
    apply bind_is_Some in H as ([m k] & Hmk & H).
    apply bind_is_Some in H as (e & He & _).
    rewrite all_chars_app. cbn [all_chars].
    rewrite unsigned_decimal_chars by (rewrite Hmk; eauto).
    rewrite exponent_chars by (rewrite He; eauto).
    unfold number_char. rewrite Hc, !orb_true_r. reflexivity.
  - subst s. now apply unsigned_decimal_chars.
Qed.

Lemma decimal_chars (s : string) :
  is_Some (decimal s) -> all_chars number_char s = true.
Proof.
  destruct s as [|c s]; [intros [? H]; discriminate H|]. cbn [decimal].
  destruct (Ascii.eqb_spec c "-") as [->|_];
    [|destruct (Ascii.eqb_spec c "+") as [->|_]];
    intros H; apply bind_is_Some in H as ([m k] & Hmk & _).
  - cbn [all_chars]. apply unsigned_number_chars. rewrite Hmk. eauto.
  - cbn [all_chars]. apply unsigned_number_chars. rewrite Hmk. eauto.
  - apply unsigned_number_chars. rewrite Hmk. eauto.
Qed.

Lemma number_of_text_chars (s : string) :
  is_Some (number_of_text s) -> all_chars number_char s = true.
Proof.
  unfold number_of_text. intros H. apply decimal_chars.
  destruct (decimal s); [eauto | destruct H as [? H]; discriminate H].
Qed.

Lemma number_char_plain (c : ascii) :
  number_char c = true -> is_foreign c = false /\ is_escape c = false.
Proof.
  destruct c as [[] [] [] [] [] [] [] []]; intros H; try discriminate H;
    split; reflexivity.
Qed.

Lemma some_char_all_chars (p q : ascii -> bool) (s : string) :
  (forall c, q c = true -> p c = false) ->
  all_chars q s = true -> some_char p s = false.
Proof.
  intros Hqp. induction s as [|c s IH]; simpl; [reflexivity|].
  intros H. apply andb_prop in H as [Hc Hs]. now rewrite (Hqp c Hc), IH.
Qed.


Lemma unescape_plain (s : string) :
  some_char is_escape s = false -> unescape s = s.
Proof.
  induction s as [|c s IH]; [reflexivity|]. cbn [some_char unescape].
  intros H. apply orb_false_elim in H as [Hc Hs].
  unfold is_escape in Hc. rewrite Hc. now rewrite IH.
Qed.

(** A number reads the same with the escapes taken out: it holds none. *)
Lemma number_unescaped (s : string) :
  is_Some (number_of_text s) -> unescape s = s.
Proof.
  intros H. apply unescape_plain.
  apply (some_char_all_chars is_escape number_char);
    [intros c Hc; apply (number_char_plain c Hc) |].
  now apply number_of_text_chars.
Qed.

Lemma null_field_profile (raw : string) :
  null_field csv_profile raw = true <-> raw = "" \/ raw = "\N".
Proof.
  unfold null_field, null_if. cbn [empty_field_as_null csv_profile existsb].
  rewrite andb_true_r, orb_false_r, orb_true_iff, !String.eqb_eq. tauto.
Qed.




(** ** The read *)

Lemma find_table_lookup (g : Globals) (w : warehouse) :
  qualified g -> valid_config g = true ->
  find_table w (FQ_TABLE g) = tables w !! table_key g.
Proof.
  intros Hq Hv. unfold find_table. rewrite (lex_table_name g Hq Hv). simpl.
  destruct (valid_parts g Hv) as (Hdb & Hsc & _ & _ & Htb & _).
  rewrite name3_words by assumption. reflexivity.
Qed.

(** The plan of the read, on the rows of the target table. *)
Lemma eval_sample (g : Globals) (w : warehouse) :
  qualified g -> valid_config g = true ->
  eval w (limit (df_transformed g) 10)
  = (t ← tables w !! table_key g;
     if sample_compiles t then
       rs1 ← mapM add_amount (table_rows t);
       rs2 ← mapM add_profit rs1;
       Some (take 10 rs2)
     else None).
Proof.
  intros Hq Hv. unfold eval, df_transformed. cbn [schema eval_rows].
  rewrite (find_table_lookup g w Hq Hv).
  change (column_name "Amount_num") with (Some "AMOUNT_NUM").
  change (column_name "Profit_num") with (Some "PROFIT_NUM").
  destruct (tables w !! table_key g) as [t|]; [|reflexivity].
  cbn [fmap option_fmap option_map mbind option_bind].
  unfold sample_compiles.
  destruct (resolves (map fst (columns t)) _); [|reflexivity].
  cbn [andb mbind option_bind].
  destruct (resolves (put_name "AMOUNT_NUM" _) _); [|reflexivity].
  cbn [mbind option_bind].
  change (mapM _ (table_rows t)) with (mapM add_amount (table_rows t)).
  destruct (mapM add_amount (table_rows t)) as [rs1|]; [|reflexivity].
  cbn [mbind option_bind].
  change (mapM _ rs1) with (mapM add_profit rs1).
  now destruct (mapM add_profit rs1).
Qed.

Lemma sample_size (g : Globals) (w : warehouse) (sample : list Row) :
  qualified g -> valid_config g = true ->
  eval w (limit (df_transformed g) 10) = Some sample ->
  exists t, tables w !! table_key g = Some t /\
            length sample = (length (rows t) `min` 10)%nat.
Proof.
  intros Hq Hv. rewrite (eval_sample g w Hq Hv).
  destruct (tables w !! table_key g) as [t|]; [|discriminate].
  cbn [mbind option_bind].
  destruct (sample_compiles t); [|discriminate].
  destruct (mapM add_amount (table_rows t)) as [rs1|] eqn:E1; [|discriminate].
  cbn [mbind option_bind].
  destruct (mapM add_profit rs1) as [rs2|] eqn:E2; [|discriminate].
  intros [= <-]. exists t. split; [reflexivity|].
  apply length_mapM in E1, E2. rewrite length_take, <- E2, <- E1.
  unfold table_rows. rewrite length_map. lia.
Qed.

Lemma orders_row_shape (vs : list value) :
  row_has_types (map snd orders_columns) vs = true ->
  exists v1 v2 v3 v4 v5 v6,
    vs = [v1; v2; v3; v4; v5; v6] /\
    (v2 = VNull \/ exists n, v2 = VNumber n) /\
    (v3 = VNull \/ exists n, v3 = VNumber n).
Proof.
  destruct vs as [|v1 [|v2 [|v3 [|v4 [|v5 [|v6 [|]]]]]]]; simpl;
    rewrite ?andb_false_r; try discriminate.
  intros H. repeat (apply andb_prop in H as [? H]).
  exists v1, v2, v3, v4, v5, v6. split; [reflexivity|].
  split; [destruct v2 | destruct v3]; try discriminate; eauto.
Qed.

Lemma returned_row_eval (vs : list value) :
  row_has_types (map snd orders_columns) vs = true ->
  add_amount (zip (map fst orders_columns) vs) ≫= add_profit
  = Some (returned_row vs).
Proof.
  intros H. apply orders_row_shape in H
    as (v1 & v2 & v3 & v4 & v5 & v6 & -> & [->|[n2 ->]] & [->|[n3 ->]]);
    reflexivity.
Qed.

Lemma transformed_rows (t : table_data) :
  columns t = orders_columns -> table_ok t ->
  (rs ← mapM add_amount (table_rows t); mapM add_profit rs)
  = Some (map returned_row (rows t)).
Proof.
  intros Hc Hok. unfold table_rows, table_ok in *. rewrite Hc in *.
  induction Hok as [|vs l Hvs _ IH]; simpl; [reflexivity|].
  pose proof (returned_row_eval vs Hvs) as Hrow.
  destruct (add_amount _) as [r1|] eqn:E1; [|discriminate Hrow].
  simpl in Hrow |- *.
  destruct (mapM add_amount _) as [rs1|] eqn:E2; [|discriminate IH].
  simpl in IH |- *. now rewrite Hrow, IH.
Qed.

Lemma eval_transformed (g : Globals) (w : warehouse) (t : table_data) :
  qualified g -> valid_config g = true ->
  tables w !! table_key g = Some t ->
  columns t = orders_columns -> table_ok t ->
  eval w (limit (df_transformed g) 10)
  = Some (take 10 (map returned_row (rows t))).
Proof.
  intros Hq Hv Ht Hc Hok. rewrite (eval_sample g w Hq Hv), Ht.
  cbn [mbind option_bind].
  assert (sample_compiles t = true) as ->
    by (unfold sample_compiles; rewrite Hc; reflexivity).
  pose proof (transformed_rows t Hc Hok) as H.
  destruct (mapM add_amount (table_rows t)) as [rs|]; [|discriminate H].
  cbn [mbind option_bind] in H |- *. now rewrite H.
Qed.

Lemma returned_row_derived (vs : list value) :
  row_has_types (map snd orders_columns) vs = true ->
  field_names (returned_row vs)
  = ["ID"; "AMOUNT"; "PROFIT"; "QUANTITY"; "CATEGORY"; "SUB_CATEGORY";
     "AMOUNT_NUM"; "PROFIT_NUM"] /\
  derived_from "AMOUNT" "AMOUNT_NUM" (returned_row vs) /\
  derived_from "PROFIT" "PROFIT_NUM" (returned_row vs).
Proof.
  intros H. apply orders_row_shape in H
    as (v1 & v2 & v3 & v4 & v5 & v6 & -> & [->|[n2 ->]] & [->|[n3 ->]]);
    (split; [reflexivity|]); split;
    solve [ left; split; reflexivity
          | right; eexists; split; reflexivity ].
Qed.

Lemma returned_rows_derived (t : table_data) (k : nat) :
  columns t = orders_columns -> table_ok t ->
  Forall (fun r =>
            field_names r
            = ["ID"; "AMOUNT"; "PROFIT"; "QUANTITY"; "CATEGORY";
               "SUB_CATEGORY"; "AMOUNT_NUM"; "PROFIT_NUM"] /\
            derived_from "AMOUNT" "AMOUNT_NUM" r /\
            derived_from "PROFIT" "PROFIT_NUM" r)
    (take k (map returned_row (rows t))).
Proof.
  intros Hc Hok. apply Forall_take, Forall_map.
  unfold table_ok in Hok. rewrite Hc in Hok.
  eapply Forall_impl; [exact Hok|]. intros vs. apply returned_row_derived.
Qed.

(** ** The whole run *)

Lemma import_module_qualified (environ : gmap string string) :
  qualified (import_module environ).
Proof. repeat split. Qed.

Lemma provisioned_table (g : Globals) (w : warehouse) :
  tables (provisioned g w) !! table_key g = Some (target_table g w).
Proof. simpl. apply ensure_lookup. Qed.

Lemma copy_effect (g : Globals) (w : warehouse) :
  valid_config g = true ->
  copy_into (table_key g) (stage_key g) (Some (format_key g))
    (Some (COPY_PATTERN g)) CONTINUE (provisioned g w)
  = Some (after_main g w).
Proof.
  intros Hv.
  destruct (valid_parts g Hv) as (_ & _ & _ & _ & _ & _ & _ & [re Hre]).
  erewrite copy_into_continue;
    [| apply provisioned_table
     | simpl; apply ensure_lookup
     | simpl; apply ensure_lookup
     | exact Hre ].
  unfold after_main, final_table, new_rows. now rewrite Hre.
Qed.

(** On the warehouse the six statements always succeed; only the read can
    raise. *)
Lemma run_on_snowflake (g : Globals) (w : warehouse) :
  qualified g -> valid_config g = true ->
  run session (main g) w
  = {| issued := plan g;
       returned := eval (after_main g w) (limit (df_transformed g) 10);
       final := after_main g w |}.
Proof.
  intros Hq Hv. rewrite run_main_plan. unfold plan.
  erewrite issue_step
    by (eapply sql_step;
        [apply parse_create_database; assumption
        | apply create_database_ensures]).
  erewrite issue_step
    by (eapply sql_step;
        [apply parse_create_schema; assumption
        | apply create_schema_ensures; simpl; set_solver]).
  erewrite issue_step
    by (eapply sql_step;
        [apply parse_create_file_format; assumption
        | apply create_file_format_ensures; simpl; set_solver]).
  erewrite issue_step
    by (eapply sql_step;
        [apply parse_create_stage; assumption
        | apply create_stage_ensures; simpl;
          [set_solver | rewrite ensure_lookup; eauto]]).
  erewrite issue_step
    by (eapply sql_step;
        [apply parse_create_table; assumption
        | apply create_table_ensures; simpl; set_solver]).
  erewrite issue_step
    by (eapply sql_step;
        [apply parse_copy_into; assumption
        | apply (copy_effect g w Hv)]).
  cbn [issue_all serve session run_collect]. unfold collect.
  now destruct (eval (after_main g w) _).
Qed.

Lemma final_table_ok (g : Globals) (w : warehouse) :
  target_ready g w ->
  columns (final_table g w) = orders_columns /\ table_ok (final_table g w).
Proof.
  intros Hr.
  assert (columns (target_table g w) = orders_columns /\
          table_ok (target_table g w)) as [Hc Hok].
  { unfold target_ready, target_table in *.
    destruct (tables w !! table_key g) as [t|]; [exact Hr|].
    split; [reflexivity | constructor]. }
  split; [exact Hc|]. unfold table_ok, final_table, new_rows. simpl.
  apply Forall_app. split; [exact Hok|].
  destruct (parse_regex _); [|constructor]. apply loaded_rows_typed.
Qed.

Lemma target_ready_after (g : Globals) (w : warehouse) :
  target_ready g w -> target_ready g (after_main g w).
Proof.
  intros Hr. unfold target_ready. simpl. rewrite lookup_insert_eq.
  now apply final_table_ok.
Qed.

(** When the target table is ready the read returns. *)
Lemma returned_on_snowflake (g : Globals) (w : warehouse) :
  qualified g -> valid_config g = true -> target_ready g w ->
  returned (run session (main g) w)
  = Some (take 10 (map returned_row (rows (final_table g w)))).
Proof.
  intros Hq Hv Hr. rewrite (run_on_snowflake g w Hq Hv). cbn [returned].
  destruct (final_table_ok g w Hr) as [Hc Hok].
  apply (eval_transformed g _ (final_table g w) Hq Hv);
    [apply lookup_insert_eq | exact Hc | exact Hok].
Qed.

(** ** Objects *)

Lemma objects_eq (w1 w2 : warehouse) :
  databases w1 = databases w2 -> schemas w1 = schemas w2 ->
  dom (file_formats w1) = dom (file_formats w2) ->
  dom (stages w1) = dom (stages w2) ->
  dom (tables w1) = dom (tables w2) ->
  objects w1 = objects w2.
Proof. unfold objects. now intros -> -> -> -> ->. Qed.

Lemma union_absorb `{Countable K} (k : K) (X : gset K) :
  {[ k ]} ∪ ({[ k ]} ∪ X) = {[ k ]} ∪ X.
Proof. now rewrite (assoc_L (∪)), (idemp_L (∪)). Qed.

Lemma objects_after_again (g : Globals) (w : warehouse) :
  objects (after_main g (after_main g w)) = objects (after_main g w).
Proof.
  apply objects_eq; simpl.
  - apply union_absorb.
  - apply union_absorb.
  - rewrite !ensure_dom. apply union_absorb.
  - rewrite !ensure_dom. apply union_absorb.
  - rewrite !dom_insert_L, !ensure_dom, dom_insert_L, ensure_dom.
    now rewrite !union_absorb.
Qed.

Lemma objects_NoDup (w : warehouse) : NoDup (objects w).
Proof.
  unfold objects.
  repeat (apply NoDup_app; split;
          [apply NoDup_fmap_2; [intros ? ? [= ->]; reflexivity
                               |apply NoDup_elements]
          |split;
           [intros x Hx Hin; apply list_elem_of_fmap in Hx as (? & -> & _);
            repeat (apply elem_of_app in Hin as [Hin|Hin];
                    [apply list_elem_of_fmap in Hin as (? & [=] & _)|]);
            apply list_elem_of_fmap in Hin as (? & [=] & _)
           |]]).
  apply NoDup_fmap_2; [intros ? ? [= ->]; reflexivity | apply NoDup_elements].
Qed.

Lemma objects_after (g : Globals) (w : warehouse) :
  Database (database_key g) ∈ objects (after_main g w) /\
  Schema (schema_key g) ∈ objects (after_main g w) /\
  FileFormat (format_key g) ∈ objects (after_main g w) /\
  Stage (stage_key g) ∈ objects (after_main g w) /\
  Table (table_key g) ∈ objects (after_main g w).
Proof.
  unfold objects. rewrite !elem_of_app, !list_elem_of_fmap.
  repeat split.
  - left. eexists. split; [reflexivity|]. apply elem_of_elements. simpl.
    apply elem_of_union_l, elem_of_singleton_2. reflexivity.
  - right. left. eexists. split; [reflexivity|]. apply elem_of_elements.
    simpl. apply elem_of_union_l, elem_of_singleton_2. reflexivity.
  - right. right. left. eexists. split; [reflexivity|].
    apply elem_of_elements. simpl. rewrite ensure_dom.
    apply elem_of_union_l, elem_of_singleton_2. reflexivity.
  - right. right. right. left. eexists. split; [reflexivity|].
    apply elem_of_elements. simpl. rewrite ensure_dom.
    apply elem_of_union_l, elem_of_singleton_2. reflexivity.
  - right. right. right. right. eexists. split; [reflexivity|].
    apply elem_of_elements. simpl. rewrite dom_insert_L.
    apply elem_of_union_l, elem_of_singleton_2. reflexivity.
Qed.

(** ** The model on small inputs *)

Example lex_create_database :
  lex "CREATE DATABASE IF NOT EXISTS sales"
  = Some [TWord "CREATE"; TWord "DATABASE"; TWord "IF"; TWord "NOT";
          TWord "EXISTS"; TWord "sales"].
Proof. vm_compute. reflexivity. Qed.

Example parse_plain_create :
  parse_sql "create database sales" = Some (CreateDatabase false "SALES").
Proof. vm_compute. reflexivity. Qed.

Example parse_refuses_injection :
  parse_sql (create_database_sql (import_module {[ "SF_DB" := "a; DROP b" ]}))
  = None.
Proof. vm_compute. reflexivity. Qed.

(** Without [IF NOT EXISTS] a second [CREATE] fails. *)
Example plain_create_twice :
  (s1 ← sql "CREATE DATABASE sales" (empty_account orders_store);
   sql "CREATE DATABASE sales" s1.2) = None /\
  is_Some (s1 ← sql "CREATE DATABASE IF NOT EXISTS sales"
                  (empty_account orders_store);
           sql "CREATE DATABASE IF NOT EXISTS sales" s1.2).
Proof. split; vm_compute; eauto. Qed.

Example default_pattern :
  (re ← parse_regex ".*Order.*";
   Some (map (matches re)
           ["Orders_2018.csv"; "2018/List_of_Orders.csv"; "Details_2018.csv";
            "orders.csv"]))
  = Some [true; true; false; false].
Proof. vm_compute. reflexivity. Qed.

Example numbers_of_text :
  map number_of_text ["100"; "-20"; "12.5"; "-0.5"; "+7"; ".5"; "abc"; "";
                      "1e3"; "12.5.1"]
  = [Some 100%Z; Some (-20)%Z; Some 13%Z; Some (-1)%Z; Some 7%Z; Some 1%Z;
     None; None; Some 1000%Z; None].
Proof. vm_compute. reflexivity. Qed.

Example load_orders_file :
  load_records csv_profile orders_columns orders_file
  = [Some [VText "B-25602"; VNumber 100; VNumber (-20); VNumber 3;
           VText "Clothing"; VText "Saree"]] /\
  load_records csv_profile orders_columns example_file = [None] /\
  load_record csv_profile orders_columns "B-25603,,7,1,Clothing"
  = None /\
  load_record csv_profile orders_columns "B-25603,,7,1,Clothing,"
  = Some [VText "B-25603"; VNull; VNumber 7; VNumber 1; VText "Clothing";
          VNull].
Proof. repeat split; vm_compute; reflexivity. Qed.

(** The options left at their defaults: the null marker, an escaped comma,
    a line break escaped at the end of a line; and a number with an
    exponent. *)
Example load_with_defaults :
  load_record csv_profile orders_columns "B-25604,\N,1e2,,\N,Tables\, round"
  = Some [VText "B-25604"; VNull; VNumber 100; VNull; VNull;
          VText "Tables, round"] /\
  length (records ("a,b\" +:+ LF +:+ "c" +:+ LF +:+ "d,e" +:+ LF)) = 2%nat /\
  cast_value DOUBLE (VText "125e-1") = Some (VDouble twelve_and_a_half).
Proof. repeat split; vm_compute; reflexivity. Qed.

(** A read is compiled before any row is read: on a table with no column
    AMOUNT it fails, even when the table holds no row. *)
Example read_compiles_first :
  let g := import_module ∅ in
  let w := {| databases := ∅; schemas := ∅; file_formats := ∅; stages := ∅;
              tables :=
                {[ table_key g := {| columns := [("ID", STRING)];
                                     rows := [] |} ]};
              storage := orders_store |} in
  eval w (table (FQ_TABLE g)) = Some [] /\
  eval w (limit (df_transformed g) 10) = None.
Proof. split; vm_compute; reflexivity. Qed.

(** A run on an empty account next to [orders_store]: all seven requests
    are issued, the file whose name matches is loaded, the other is not,
    and the row comes back with its two derived fields. *)
Example run_on_orders_store :
  let g := import_module ∅ in
  let o := run session (main g) (empty_account orders_store) in
  issued o = plan g /\
  returned o
  = Some
      [[("ID", VText "B-25602"); ("AMOUNT", VNumber 100);
        ("PROFIT", VNumber (-20)); ("QUANTITY", VNumber 3);
        ("CATEGORY", VText "Clothing"); ("SUB_CATEGORY", VText "Saree");
        ("AMOUNT_NUM", VDouble (S754_finite false 7036874417766400 (-46)));
        ("PROFIT_NUM", VDouble (S754_finite true 5629499534213120 (-48)))]] /\
  objects (final o)
  = [Database "DATA_PIPELINE_DB"; Schema ("DATA_PIPELINE_DB", "CSV_FILES");
     FileFormat ("DATA_PIPELINE_DB", "CSV_FILES", "CSV_FORMAT");
     Stage ("DATA_PIPELINE_DB", "CSV_FILES", "AWS_STAGE");
     Table ("DATA_PIPELINE_DB", "CSV_FILES", "ORDERS")].
Proof. repeat split; vm_compute; reflexivity. Qed.

(* ===================================================================== *)
(** * The properties of the specification *)
(* ===================================================================== *)

(** C1.  [main] executes the fixed linear sequence of statements, for every
    invocation.  Whatever the configuration, the session and the state it is
    in, running [main] is issuing the seven requests of [plan] one after the
    other, each on the state the one before has left, and the requests do
    not depend on what the session answers: there is no branch and no
    cycle.  A run can only stop short, at a request that raises; when no
    request raises, all seven are issued and the run returns.  For a valid
    configuration the seven requests are, in this order: create database,
    create schema, create file format, create stage, create table, bulk
    copy, and the read whose rows are returned. *)
Theorem main_issues_fixed_sequence (environ : gmap string string)
  (S : Session) (s : state S) :
  let g := import_module environ in
  run S (main g) s = issue_all S (plan g) [] s /\
  (exists n : nat,
      issued (run S (main g) s) = take n (plan g) /\ (1 <= n <= 7)%nat /\
      (is_Some (returned (run S (main g) s)) -> n = 7%nat)) /\
  ((forall r s', is_Some (serve S r s')) ->
   issued (run S (main g) s) = plan g /\
   is_Some (returned (run S (main g) s))) /\
  (valid_config g = true ->
   map kind_of (plan g)
   = [Some CreateDatabaseStatement; Some CreateSchemaStatement;
      Some CreateFileFormatStatement; Some CreateStageStatement;
      Some CreateTableStatement; Some CopyStatement; Some Query]).
Proof.
  intros g. pose proof (import_module_qualified environ) as Hq.
  fold g in Hq. split; [|split; [|split]].
  - apply run_main_plan.
  - rewrite run_main_plan.
    destruct (issue_all_log S (plan g) [] s) as (n & Hlog & Hle & Hpos & Hall).
    exists n. split; [exact Hlog|]. split.
    + split; [apply Hpos; discriminate | exact Hle].
    + exact Hall.
  - intros Hserve. rewrite run_main_plan. now apply issue_all_total.
  - intros Hv. unfold plan. cbn [map kind_of].
    rewrite (parse_create_database g Hq Hv), (parse_create_schema g Hq Hv),
      (parse_create_file_format g Hq Hv), (parse_create_stage g Hq Hv),
      (parse_create_table g Hq Hv), (parse_copy_into g Hq Hv).
    reflexivity.
Qed.

(** The defaults, on the warehouse model with nothing in it. *)
Lemma main_issues_fixed_sequence_witness :
  let g := import_module ∅ in
  let w := empty_account orders_store in
  valid_config g = true /\
  run session (main g) w = issue_all session (plan g) [] w /\
  issued (run session (main g) w) = plan g /\
  map kind_of (plan g)
  = [Some CreateDatabaseStatement; Some CreateSchemaStatement;
     Some CreateFileFormatStatement; Some CreateStageStatement;
     Some CreateTableStatement; Some CopyStatement; Some Query].
Proof.
  assert (valid_config (import_module ∅) = true) as Hv
    by (vm_compute; reflexivity).
  split; [exact Hv|].
  destruct (main_issues_fixed_sequence ∅ session (empty_account orders_store))
    as (Hrun & _ & _ & Hk).
  split; [exact Hrun|]. split; [vm_compute; reflexivity | exact (Hk Hv)].
Defined.

(** C2.  Running the provisioning steps twice produces no duplicate
    database, schema, file format, stage or table.  Each of the five
    provisioning statements [main] issues is a [CREATE ... IF NOT EXISTS]:
    executed again on the account it has just run on, it succeeds and
    changes nothing.  On every account both runs get through all their
    statements, the second run leaves exactly the objects the first one
    left, each object once, and the five configured objects are among
    them. *)
Theorem provisioning_is_idempotent (environ : gmap string string)
  (w : warehouse) :
  let g := import_module environ in
  let once := run session (main g) w in
  let twice := run session (main g) (final once) in
  valid_config g = true ->
  Forall (fun text => exists st,
              parse_sql text = Some st /\ idempotent_create st = true /\
              forall w0 rows w1,
                sql text w0 = Some (rows, w1) -> sql text w1 = Some ([], w1))
    [create_database_sql g; create_schema_sql g; create_file_format_sql g;
     create_stage_sql g; create_table_sql g] /\
  issued once = plan g /\ issued twice = plan g /\
  objects (final twice) = objects (final once) /\
  NoDup (objects (final twice)) /\
  (Database (database_key g) ∈ objects (final once) /\
   Schema (schema_key g) ∈ objects (final once) /\
   FileFormat (format_key g) ∈ objects (final once) /\
   Stage (stage_key g) ∈ objects (final once) /\
   Table (table_key g) ∈ objects (final once)).
Proof.
  intros g once twice Hv. pose proof (import_module_qualified environ) as Hq.
  fold g in Hq. split.
  - assert (forall text st, parse_sql text = Some st ->
              idempotent_create st = true ->
              exists st', parse_sql text = Some st' /\
                idempotent_create st' = true /\
                forall w0 rows w1,
                  sql text w0 = Some (rows, w1) -> sql text w1 = Some ([], w1))
      as Hone.
    { intros text st Hp Hi. exists st. repeat split; try assumption.
      intros w0 rows w1. unfold sql. rewrite Hp. simpl.
      destruct (exec st w0) as [w'|] eqn:He; [|discriminate].
      intros [= _ <-]. now rewrite (exec_again st w0 w' Hi He). }
    repeat constructor.
    + exact (Hone _ _ (parse_create_database g Hq Hv) eq_refl).
    + exact (Hone _ _ (parse_create_schema g Hq Hv) eq_refl).
    + exact (Hone _ _ (parse_create_file_format g Hq Hv) eq_refl).
    + exact (Hone _ _ (parse_create_stage g Hq Hv) eq_refl).
    + exact (Hone _ _ (parse_create_table g Hq Hv) eq_refl).
  - unfold twice, once. rewrite !(run_on_snowflake g _ Hq Hv).
    cbn [issued final].
    split; [reflexivity|]. split; [reflexivity|].
    split; [apply objects_after_again|].
    split; [apply objects_NoDup | apply objects_after].
Qed.

(** A configured table name, on an account with nothing in it: the five
    objects after one run and after two. *)
Lemma provisioning_is_idempotent_witness :
  let g := import_module (<["SF_TABLE" := "sales_2018"]> ∅) in
  let once := run session (main g) (empty_account orders_store) in
  let twice := run session (main g) (final once) in
  valid_config g = true /\
  objects (final twice) = objects (final once) /\
  objects (final once)
  = [Database "DATA_PIPELINE_DB"; Schema ("DATA_PIPELINE_DB", "CSV_FILES");
     FileFormat ("DATA_PIPELINE_DB", "CSV_FILES", "CSV_FORMAT");
     Stage ("DATA_PIPELINE_DB", "CSV_FILES", "AWS_STAGE");
     Table ("DATA_PIPELINE_DB", "CSV_FILES", "SALES_2018")].
Proof.
  assert (valid_config (import_module (<["SF_TABLE" := "sales_2018"]> ∅))
          = true) as Hv by (vm_compute; reflexivity).
  split; [exact Hv|]. split; [|vm_compute; reflexivity].
  exact (proj1 (proj2 (proj2 (proj2
           (provisioning_is_idempotent (<["SF_TABLE" := "sales_2018"]> ∅)
              (empty_account orders_store) Hv))))).
Defined.

(** C3.  The rows returned by [main] are at most 10, and none only if the
    table is empty.  This holds on every account and every state of the
    table: whenever [main] returns, the sample has at most 10 rows, and if
    it is empty then the target table, as the run leaves it, holds no row.
    [main] does return when the target table is still to be created or has
    the shape [main] gives it, and the sample is then the first 10 rows of
    the table, transformed. *)
Theorem sample_is_bounded (environ : gmap string string) (w : warehouse) :
  let g := import_module environ in
  let o := run session (main g) w in
  valid_config g = true ->
  (forall sample,
      returned o = Some sample ->
      exists t, tables (final o) !! table_key g = Some t /\
                (length sample <= 10)%nat /\
                (sample = [] -> rows t = [])) /\
  (target_ready g w ->
   exists t,
     tables (final o) !! table_key g = Some t /\
     returned o = Some (take 10 (map returned_row (rows t)))).
Proof.
  intros g o Hv. pose proof (import_module_qualified environ) as Hq.
  fold g in Hq. split.
  - intros sample. unfold o. rewrite (run_on_snowflake g w Hq Hv).
    cbn [returned final]. intros E.
    apply (sample_size g _ sample Hq Hv) in E as (t & Ht & Hlen).
    exists t. split; [exact Ht|]. split; [lia|].
    intros ->. simpl in Hlen. destruct (rows t); [reflexivity|].
    simpl in Hlen. lia.
  - intros Hr. exists (final_table g w). split.
    + unfold o. rewrite (run_on_snowflake g w Hq Hv). cbn [final].
      apply lookup_insert_eq.
    + apply (returned_on_snowflake g w Hq Hv Hr).
Qed.

(** The defaults, on an account with nothing in it. *)
Lemma sample_is_bounded_witness :
  let g := import_module ∅ in
  let w := empty_account orders_store in
  let o := run session (main g) w in
  valid_config g = true /\ target_ready g w /\
  exists t,
    tables (final o) !! table_key g = Some t /\
    returned o = Some (take 10 (map returned_row (rows t))).
Proof.
  assert (valid_config (import_module ∅) = true) as Hv
    by (vm_compute; reflexivity).
  assert (target_ready (import_module ∅) (empty_account orders_store)) as Hr
    by (vm_compute; exact I).
  split; [exact Hv|]. split; [exact Hr|].
  exact (proj2 (sample_is_bounded ∅ (empty_account orders_store) Hv) Hr).
Defined.




(** C5, as amended.  The target table created by [main] has a fixed
    6-column shape, ID, Amount, Profit, Quantity, Category, Sub_Category, in
    which ID, Category and Sub_Category are created as text and Amount,
    Profit and Quantity as NUMBER; every value is loaded under the type of
    its column (text in a text column, a number in a numeric column) or as
    null. *)
Theorem target_table_shape (environ : gmap string string) (w : warehouse) :
  let g := import_module environ in
  let o := run session (main g) w in
  valid_config g = true -> tables w !! table_key g = None ->
  parse_sql (create_table_sql g)
  = Some (CreateTable true (table_key g)
            [("ID", STRING); ("AMOUNT", NUMBER); ("PROFIT", NUMBER);
             ("QUANTITY", NUMBER); ("CATEGORY", STRING);
             ("SUB_CATEGORY", STRING)]) /\
  exists t,
    tables (final o) !! table_key g = Some t /\
    columns t
    = [("ID", STRING); ("AMOUNT", NUMBER); ("PROFIT", NUMBER);
       ("QUANTITY", NUMBER); ("CATEGORY", STRING); ("SUB_CATEGORY", STRING)] /\
    Forall (fun vs =>
              row_has_types [STRING; NUMBER; NUMBER; NUMBER; STRING; STRING] vs
              = true) (rows t).
Proof.
  intros g o Hv Hnone. pose proof (import_module_qualified environ) as Hq.
  fold g in Hq.
  assert (target_ready g w) as Hr by (unfold target_ready; now rewrite Hnone).
  split; [exact (parse_create_table g Hq Hv)|].
  exists (final_table g w). unfold o. rewrite (run_on_snowflake g w Hq Hv).
  cbn [final]. split; [apply lookup_insert_eq|].
  destruct (final_table_ok g w Hr) as [Hc Hok]. split; [exact Hc|].
  unfold table_ok in Hok. now rewrite Hc in Hok.
Qed.

(** The defaults, on an account with nothing in it. *)
Lemma target_table_shape_witness :
  let g := import_module ∅ in
  let w := empty_account orders_store in
  let o := run session (main g) w in
  valid_config g = true /\ tables w !! table_key g = None /\
  exists t,
    tables (final o) !! table_key g = Some t /\
    columns t
    = [("ID", STRING); ("AMOUNT", NUMBER); ("PROFIT", NUMBER);
       ("QUANTITY", NUMBER); ("CATEGORY", STRING); ("SUB_CATEGORY", STRING)] /\
    Forall (fun vs =>
              row_has_types [STRING; NUMBER; NUMBER; NUMBER; STRING; STRING] vs
              = true) (rows t).
Proof.
  assert (valid_config (import_module ∅) = true) as Hv
    by (vm_compute; reflexivity).
  assert (tables (empty_account orders_store) !! table_key (import_module ∅)
          = None) as Hn by (vm_compute; reflexivity).
  split; [exact Hv|]. split; [exact Hn|].
  exact (proj2 (target_table_shape ∅ (empty_account orders_store) Hv Hn)).
Defined.

(** C5, as stated, fails.  With the defaults, the table [main] creates has
    Amount as a NUMBER column, and the row loaded from the staged file holds
    numbers there: not every column is text, and not every value is loaded
    as text. *)
Lemma numeric_columns_counterexample :
  let g := import_module ∅ in
  let o := run session (main g) (empty_account orders_store) in
  let t := {| columns :=
                [("ID", STRING); ("AMOUNT", NUMBER); ("PROFIT", NUMBER);
                 ("QUANTITY", NUMBER); ("CATEGORY", STRING);
                 ("SUB_CATEGORY", STRING)];
              rows :=
                [[VText "B-25602"; VNumber 100; VNumber (-20); VNumber 3;
                  VText "Clothing"; VText "Saree"]] |} in
  tables (final o) !! ("DATA_PIPELINE_DB", "CSV_FILES", "ORDERS") = Some t /\
  ~ Forall (fun c => c.2 = STRING) (columns t) /\
  ~ Forall (Forall (fun v => exists s, v = VText s)) (rows t).
Proof.
  split; [vm_compute; reflexivity|]. split.
  - intros H. apply Forall_cons in H as [_ H]. apply Forall_cons in H as [H _].
    discriminate H.
  - intros H. apply Forall_cons in H as [H _].
    apply Forall_cons in H as [_ H]. apply Forall_cons in H as [[s H] _].
    discriminate H.
Qed.

(** C6, as amended.  Every row record returned by [main], from a target
    table with the shape [main] creates, exposes exactly the six original
    columns, under the names ID, AMOUNT, PROFIT, QUANTITY, CATEGORY and
    SUB_CATEGORY, plus the two derived columns, under the names AMOUNT_NUM
    and PROFIT_NUM, each a floating point value or null, in that order.
    These are the names the source gives the columns, resolved in upper
    case. *)
Theorem returned_record_fields (environ : gmap string string)
  (w : warehouse) :
  let g := import_module environ in
  valid_config g = true -> target_ready g w ->
  exists sample,
    returned (run session (main g) w) = Some sample /\
    Forall (fun r =>
              field_names r
              = ["ID"; "AMOUNT"; "PROFIT"; "QUANTITY"; "CATEGORY";
                 "SUB_CATEGORY"; "AMOUNT_NUM"; "PROFIT_NUM"] /\
              double_or_null (get_field "AMOUNT_NUM" r) /\
              double_or_null (get_field "PROFIT_NUM" r)) sample.
Proof.
  intros g Hv Hr. pose proof (import_module_qualified environ) as Hq.
  fold g in Hq.
  eexists. split; [apply (returned_on_snowflake g w Hq Hv Hr)|].
  destruct (final_table_ok g w Hr) as [Hc Hok].
  eapply Forall_impl;
    [apply (returned_rows_derived (final_table g w) 10 Hc Hok)|].
  intros r (Hn & Ha & Hp). split; [exact Hn|].
  unfold double_or_null.
  split; [destruct Ha as [[_ ->]|(n & _ & ->)]
         | destruct Hp as [[_ ->]|(n & _ & ->)]]; eauto.
Qed.

(** The defaults, on an account with nothing in it and one staged row. *)
Lemma returned_record_fields_witness :
  let g := import_module ∅ in
  let w := empty_account orders_store in
  valid_config g = true /\ target_ready g w /\
  exists sample,
    returned (run session (main g) w) = Some sample /\
    Forall (fun r =>
              field_names r
              = ["ID"; "AMOUNT"; "PROFIT"; "QUANTITY"; "CATEGORY";
                 "SUB_CATEGORY"; "AMOUNT_NUM"; "PROFIT_NUM"] /\
              double_or_null (get_field "AMOUNT_NUM" r) /\
              double_or_null (get_field "PROFIT_NUM" r)) sample.
Proof.
  assert (valid_config (import_module ∅) = true) as Hv
    by (vm_compute; reflexivity).
  assert (target_ready (import_module ∅) (empty_account orders_store)) as Hr
    by (vm_compute; exact I).
  split; [exact Hv|]. split; [exact Hr|].
  exact (returned_record_fields ∅ (empty_account orders_store) Hv Hr).
Defined.

(** C6, as stated, fails.  With the defaults and one staged row, the record
    [main] returns has no field named [amount_numeric] or [profit_numeric],
    in either case, and none named [identifier]: the derived fields are
    AMOUNT_NUM and PROFIT_NUM. *)
Lemma field_names_counterexample :
  let g := import_module ∅ in
  let r := [("ID", VText "B-25602"); ("AMOUNT", VNumber 100);
            ("PROFIT", VNumber (-20)); ("QUANTITY", VNumber 3);
            ("CATEGORY", VText "Clothing"); ("SUB_CATEGORY", VText "Saree");
            ("AMOUNT_NUM", VDouble (S754_finite false 7036874417766400 (-46)));
            ("PROFIT_NUM", VDouble (S754_finite true 5629499534213120 (-48)))]
  in
  returned (run session (main g) (empty_account orders_store)) = Some [r] /\
  get_field "amount_numeric" r = None /\
  get_field "profit_numeric" r = None /\
  get_field "AMOUNT_NUMERIC" r = None /\
  get_field "PROFIT_NUMERIC" r = None /\
  get_field "identifier" r = None.
Proof. repeat split; vm_compute; reflexivity. Qed.

(** C7.  The file-format object [main] creates is a CSV parsing profile with
    field delimiter [,], exactly one header row skipped, and empty fields
    treated as null: this is what the statement text says, it is the profile
    found in the catalog after [main] when the format did not exist
    before, and under it a file is read without its first line, each line
    split at the commas, an empty field giving null. *)
Theorem file_format_is_csv_profile (environ : gmap string string)
  (w : warehouse) :
  let g := import_module environ in
  let profile := {| type := CSV; field_delimiter := ",";
                    skip_header := 1; empty_field_as_null := true |} in
  valid_config g = true -> file_formats w !! format_key g = None ->
  parse_sql (create_file_format_sql g)
  = Some (CreateFileFormat true (format_key g) profile) /\
  file_formats (final (run session (main g) w)) !! format_key g
  = Some profile /\
  (forall cols content,
      load_records profile cols content
      = map (fun record => convert_fields profile (map snd cols)
                             (split_on "," "" record))
          (drop 1 (records content))) /\
  (forall ty, field_value profile ty "" = Some VNull).
Proof.
  intros g profile Hv Hnone.
  pose proof (import_module_qualified environ) as Hq. fold g in Hq.
  split; [exact (parse_create_file_format g Hq Hv)|]. split; [|split].
  - rewrite (run_on_snowflake g w Hq Hv). cbn [final after_main file_formats].
    simpl. rewrite ensure_lookup, Hnone. reflexivity.
  - reflexivity.
  - intros ty. reflexivity.
Qed.

(** The defaults, on an account with nothing in it. *)
Lemma file_format_is_csv_profile_witness :
  let g := import_module ∅ in
  let w := empty_account orders_store in
  valid_config g = true /\ file_formats w !! format_key g = None /\
  file_formats (final (run session (main g) w)) !! format_key g
  = Some {| type := CSV; field_delimiter := ","; skip_header := 1;
            empty_field_as_null := true |}.
Proof.
  assert (valid_config (import_module ∅) = true) as Hv
    by (vm_compute; reflexivity).
  assert (file_formats (empty_account orders_store)
          !! format_key (import_module ∅) = None) as Hn
    by (vm_compute; reflexivity).
  split; [exact Hv|]. split; [exact Hn|].
  exact (proj1 (proj2 (file_format_is_csv_profile ∅
                         (empty_account orders_store) Hv Hn))).
Defined.

(** C8.  The bulk-load statement copies from the stage into the table only
    the objects whose names match the configured pattern, under the on-error
    policy [CONTINUE]: the rows it adds are exactly the records, past the
    header, that load, of the staged files whose name matches; records that
    fail to parse are left out and the statement succeeds all the same,
    where the policy [ABORT_STATEMENT] would fail the whole load. *)
Theorem bulk_load_is_filtered_and_lenient (environ : gmap string string)
  (w : warehouse) (t : table_data) (s : stage) (f : file_format) :
  let g := import_module environ in
  valid_config g = true ->
  tables w !! table_key g = Some t -> stages w !! stage_key g = Some s ->
  file_formats w !! format_key g = Some f ->
  parse_sql (copy_into_sql g)
  = Some (CopyInto (table_key g) (stage_key g) (Some (format_key g))
            (Some (COPY_PATTERN g)) CONTINUE) /\
  exists re w' new,
    parse_regex (COPY_PATTERN g) = Some re /\
    sql (copy_into_sql g) w = Some ([], w') /\
    tables w' !! table_key g
    = Some {| columns := columns t; rows := (rows t ++ new)%list |} /\
    (forall vs,
        vs ∈ new <->
        exists name content record,
          (name, content) ∈ storage w (stage_url s) /\
          matches re name = true /\
          record ∈ drop (skip_header f) (records content) /\
          load_record f (columns t) record = Some vs) /\
    ((exists name content record,
         (name, content) ∈ storage w (stage_url s) /\
         matches re name = true /\
         record ∈ drop (skip_header f) (records content) /\
         load_record f (columns t) record = None) ->
     copy_into (table_key g) (stage_key g) (Some (format_key g))
       (Some (COPY_PATTERN g)) ABORT_STATEMENT w = None).
Proof.
  intros g Hv Ht Hs Hf.
  pose proof (import_module_qualified environ) as Hq. fold g in Hq.
  destruct (valid_parts g Hv) as (_ & _ & _ & _ & _ & _ & _ & [re Hre]).
  split; [exact (parse_copy_into g Hq Hv)|].
  exists re. eexists _, _. split; [exact Hre|]. split.
  - unfold sql. rewrite (parse_copy_into g Hq Hv).
    cbn [mbind option_bind exec].
    rewrite (copy_into_continue _ _ _ _ w t s f re Ht Hs Hf Hre). reflexivity.
  - split; [simpl; apply lookup_insert_eq|]. split.
    + apply loaded_rows_spec.
    + apply (copy_into_abort _ _ _ _ w t s f re Ht Hs Hf Hre).
Qed.

(** The defaults, on the account as the five provisioning statements leave
    it. *)
Lemma bulk_load_is_filtered_and_lenient_witness :
  let g := import_module ∅ in
  let w := provisioned g (empty_account orders_store) in
  let t := {| columns := orders_columns; rows := [] |} in
  valid_config g = true /\
  tables w !! table_key g = Some t /\
  stages w !! stage_key g = Some (configured_stage g) /\
  file_formats w !! format_key g = Some csv_profile /\
  parse_sql (copy_into_sql g)
  = Some (CopyInto (table_key g) (stage_key g) (Some (format_key g))
            (Some (COPY_PATTERN g)) CONTINUE).
Proof.
  assert (valid_config (import_module ∅) = true) as Hv
    by (vm_compute; reflexivity).
  assert (tables (provisioned (import_module ∅) (empty_account orders_store))
          !! table_key (import_module ∅)
          = Some {| columns := orders_columns; rows := [] |}) as Ht
    by (vm_compute; reflexivity).
  assert (stages (provisioned (import_module ∅) (empty_account orders_store))
          !! stage_key (import_module ∅)
          = Some (configured_stage (import_module ∅))) as Hs
    by (vm_compute; reflexivity).
  assert (file_formats
            (provisioned (import_module ∅) (empty_account orders_store))
          !! format_key (import_module ∅) = Some csv_profile) as Hf
    by (vm_compute; reflexivity).
  split; [exact Hv|]. split; [exact Ht|]. split; [exact Hs|].
  split; [exact Hf|].
  exact (proj1 (bulk_load_is_filtered_and_lenient ∅ _ _ _ _ Hv Ht Hs Hf)).
Defined.

(** C9.  Each of the configuration values SF_DB, SF_SCHEMA, SF_FILE_FORMAT,
    SF_STAGE, SF_TABLE, S3_URL and COPY_PATTERN is the variable's value when
    it is set and a hardcoded default when it is not; with all seven unset
    the qualified names are DATA_PIPELINE_DB.CSV_FILES.csv_format,
    DATA_PIPELINE_DB.CSV_FILES.aws_stage and
    DATA_PIPELINE_DB.CSV_FILES.ORDERS; and whatever the environment, each
    qualified name is database.schema.object, built from the configuration. *)
Theorem configuration_defaults (environ : gmap string string) :
  let g := import_module environ in
  environ !! "SF_DB" = None -> environ !! "SF_SCHEMA" = None ->
  environ !! "SF_FILE_FORMAT" = None -> environ !! "SF_STAGE" = None ->
  environ !! "SF_TABLE" = None -> environ !! "S3_URL" = None ->
  environ !! "COPY_PATTERN" = None ->
  (DB g = "DATA_PIPELINE_DB" /\ SCHEMA g = "CSV_FILES" /\
   FILE_FORMAT_NAME g = "csv_format" /\ STAGE_NAME g = "aws_stage" /\
   TABLE_NAME g = "ORDERS" /\ S3_URL g = "s3://bucketsnowflakes3/" /\
   COPY_PATTERN g = ".*Order.*") /\
  (FQ_FILE_FORMAT g = "DATA_PIPELINE_DB.CSV_FILES.csv_format" /\
   FQ_STAGE g = "DATA_PIPELINE_DB.CSV_FILES.aws_stage" /\
   FQ_TABLE g = "DATA_PIPELINE_DB.CSV_FILES.ORDERS") /\
  (forall e : gmap string string,
      let g' := import_module e in
      DB g' = default "DATA_PIPELINE_DB" (e !! "SF_DB") /\
      SCHEMA g' = default "CSV_FILES" (e !! "SF_SCHEMA") /\
      FILE_FORMAT_NAME g' = default "csv_format" (e !! "SF_FILE_FORMAT") /\
      STAGE_NAME g' = default "aws_stage" (e !! "SF_STAGE") /\
      TABLE_NAME g' = default "ORDERS" (e !! "SF_TABLE") /\
      S3_URL g' = default "s3://bucketsnowflakes3/" (e !! "S3_URL") /\
      COPY_PATTERN g' = default ".*Order.*" (e !! "COPY_PATTERN") /\
      FQ_FILE_FORMAT g'
      = DB g' +:+ "." +:+ SCHEMA g' +:+ "." +:+ FILE_FORMAT_NAME g' /\
      FQ_STAGE g' = DB g' +:+ "." +:+ SCHEMA g' +:+ "." +:+ STAGE_NAME g' /\
      FQ_TABLE g' = DB g' +:+ "." +:+ SCHEMA g' +:+ "." +:+ TABLE_NAME g').
Proof.
  intros g H1 H2 H3 H4 H5 H6 H7. split; [|split].
  - unfold g, import_module, getenv; cbn [DB SCHEMA FILE_FORMAT_NAME
      STAGE_NAME TABLE_NAME S3_URL COPY_PATTERN].
    now rewrite H1, H2, H3, H4, H5, H6, H7.
  - unfold g, import_module, getenv, fq; cbn [FQ_FILE_FORMAT FQ_STAGE FQ_TABLE].
    now rewrite H1, H2, H3, H4, H5.
  - intros e g'. unfold g', import_module, getenv, fq;
      cbn [DB SCHEMA FILE_FORMAT_NAME STAGE_NAME TABLE_NAME S3_URL
           COPY_PATTERN FQ_FILE_FORMAT FQ_STAGE FQ_TABLE].
    repeat split;
      match goal with
      | |- context [e !! ?k] => destruct (e !! k); reflexivity
      end.
Qed.

(** An environment that sets none of the seven variables. *)
Lemma configuration_defaults_witness :
  let environ : gmap string string := {[ "HOME" := "/root" ]} in
  let g := import_module environ in
  environ !! "SF_DB" = None /\ environ !! "COPY_PATTERN" = None /\
  FQ_FILE_FORMAT g = "DATA_PIPELINE_DB.CSV_FILES.csv_format" /\
  FQ_STAGE g = "DATA_PIPELINE_DB.CSV_FILES.aws_stage" /\
  FQ_TABLE g = "DATA_PIPELINE_DB.CSV_FILES.ORDERS".
Proof.
  split; [vm_compute; reflexivity|]. split; [vm_compute; reflexivity|].
  refine (proj1 (proj2 (configuration_defaults {[ "HOME" := "/root" ]}
                          _ _ _ _ _ _ _)));
    vm_compute; reflexivity.
Defined.

Lemma after_globals (cs : list env_change) (p : Process) :
  globals (after cs p) = globals p.
Proof.
  revert p. induction cs as [|c cs IH]; intros p; [reflexivity|].
  unfold after in *. simpl. rewrite IH. now destruct c.
Qed.

(** C10.  The configuration is read from the environment once, when the
    module is imported.  Whatever is set or unset in the environment
    before and between two invocations of [main] in the process, both
    invocations work from the globals bound at import: they are the same
    procedure, the requests they issue are the same position by position
    whatever the sessions answer, and the same lists when both return. *)
Theorem configuration_read_once (environ : gmap string string)
  (before between : list env_change) (S : Session) (s1 s2 : state S) :
  let p1 := after before (start environ) in
  let p2 := after between p1 in
  globals p1 = import_module environ /\
  globals p2 = import_module environ /\
  call_main p1 = call_main p2 /\
  (forall (i : nat) (r1 r2 : Request),
      issued (run S (call_main p1) s1) !! i = Some r1 ->
      issued (run S (call_main p2) s2) !! i = Some r2 -> r1 = r2) /\
  (is_Some (returned (run S (call_main p1) s1)) ->
   is_Some (returned (run S (call_main p2) s2)) ->
   issued (run S (call_main p1) s1) = issued (run S (call_main p2) s2)).
Proof.
  intros p1 p2.
  assert (globals p1 = import_module environ) as E1
    by (unfold p1; now rewrite after_globals).
  assert (globals p2 = import_module environ) as E2
    by (unfold p2; now rewrite after_globals).
  unfold call_main. rewrite E1, E2. set (g := import_module environ).
  rewrite !run_main_plan.
  destruct (issue_all_log S (plan g) [] s1) as (n1 & L1 & _ & _ & A1).
  destruct (issue_all_log S (plan g) [] s2) as (n2 & L2 & _ & _ & A2).
  repeat split.
  - intros i r1 r2. rewrite L1, L2. intros H1 H2.
    apply lookup_take_Some in H1 as [H1 _].
    apply lookup_take_Some in H2 as [H2 _]. congruence.
  - intros O1 O2. rewrite L1, L2, (A1 O1), (A2 O2). reflexivity.
Qed.

(** The environment is changed before the first invocation and again before
    the second. *)
Lemma configuration_read_once_witness :
  let p1 := after [Setenv "SF_DB" "OTHER_DB"] (start ∅) in
  let p2 := after [Setenv "SF_TABLE" "OTHER"; Unsetenv "SF_DB"] p1 in
  environ p1 !! "SF_DB" = Some "OTHER_DB" /\
  environ p2 !! "SF_TABLE" = Some "OTHER" /\
  globals p1 = import_module ∅ /\ globals p2 = import_module ∅ /\
  call_main p1 = call_main p2.
Proof.
  split; [vm_compute; reflexivity|]. split; [vm_compute; reflexivity|].
  destruct (configuration_read_once ∅ [Setenv "SF_DB" "OTHER_DB"]
              [Setenv "SF_TABLE" "OTHER"; Unsetenv "SF_DB"] session
              (empty_account orders_store) (empty_account orders_store))
    as (H1 & H2 & H3 & _).
  split; [exact H1|]. split; [exact H2 | exact H3].
Defined.

(* ===================================================================== *)
(** * Further properties of the module *)
(* ===================================================================== *)

(** ** Traces *)

Lemma issue_all_stops (S : Session) (pre post : list Request) (r : Request)
  (last : list Row) (s s' : state S) :
  answer_all S pre s = Some s' -> serve S r s' = None ->
  issue_all S (pre ++ r :: post) last s
  = {| issued := pre ++ [r]; returned := None; final := s' |}.
Proof.
  revert last s. induction pre as [|r0 pre IH]; intros last s; simpl.
  - intros [= ->] Hr. now rewrite Hr.
  - destruct (serve S r0 s) as [[rows s0]|]; [|discriminate].
    intros Hpre Hr. now rewrite (IH rows s0 Hpre Hr).
Qed.

Lemma issue_all_returns (S : Session) (pre : list Request) (r : Request)
  (last rows : list Row) (s s' : state S) :
  (returned (issue_all S (pre ++ [r]) last s) = Some rows /\
   final (issue_all S (pre ++ [r]) last s) = s') <->
  exists s0, answer_all S pre s = Some s0 /\ serve S r s0 = Some (rows, s').
Proof.
  revert last s. induction pre as [|r0 pre IH]; intros last s; simpl.
  - destruct (serve S r s) as [[rows0 s0]|] eqn:E; simpl.
    + split.
      * intros [H1 H2]. injection H1 as ->. subst s'. exists s. now split.
      * intros (s1 & H1 & H2). injection H1 as <-. rewrite E in H2.
        injection H2 as -> ->. now split.
    + split.
      * intros [H _]. discriminate H.
      * intros (s1 & H1 & H2). injection H1 as <-. rewrite E in H2.
        discriminate H2.
  - destruct (serve S r0 s) as [[rows0 s0]|]; simpl; [apply IH|].
    split.
    + intros [H _]. discriminate H.
    + intros (s1 & H & _). discriminate H.
Qed.

(** A run that returns has issued every request. *)
Lemma issue_all_issued (S : Session) (rs : list Request) (last : list Row)
  (s : state S) :
  is_Some (returned (issue_all S rs last s)) ->
  issued (issue_all S rs last s) = rs.
Proof.
  intros H. destruct (issue_all_log S rs last s) as (n & Hlog & _ & _ & Hn).
  rewrite Hlog, (Hn H). apply firstn_all.
Qed.

(** ** The account after a run *)

Lemma final_on_snowflake (g : Globals) (w : warehouse) :
  qualified g -> valid_config g = true ->
  final (run session (main g) w) = after_main g w.
Proof. intros Hq Hv. now rewrite (run_on_snowflake g w Hq Hv). Qed.

Lemma ensure_lookup_ne {V : Type} (k k' : qname) (v : V) (m : gmap qname V) :
  k' <> k -> ensure k v m !! k' = m !! k'.
Proof.
  intros Hne. unfold ensure. destruct (m !! k); [reflexivity|].
  now apply lookup_insert_ne.
Qed.

Lemma ensure_present {V : Type} (k : qname) (v x : V) (m : gmap qname V) :
  m !! k = Some x -> ensure k v m = m.
Proof. intros H. unfold ensure. now rewrite H. Qed.

Lemma existsb_absent (n : string) (names : list string) :
  n ∉ names -> existsb (String.eqb n) names = false.
Proof.
  induction names as [|x names IH]; [reflexivity|]. intros H.
  apply not_elem_of_cons in H as [Hne Hn]. cbn [existsb].
  destruct (String.eqb_spec n x) as [->|_]; [contradiction|]. now apply IH.
Qed.

Lemma eval_without_amount (g : Globals) (w : warehouse) (t : table_data) :
  qualified g -> valid_config g = true ->
  tables w !! table_key g = Some t ->
  ("AMOUNT" ∉ map fst (columns t)) ->
  eval w (limit (df_transformed g) 10) = None.
Proof.
  intros Hq Hv Ht Hc. rewrite (eval_sample g w Hq Hv), Ht.
  cbn [mbind option_bind]. unfold sample_compiles. cbn [resolves].
  change (column_name "Amount") with (Some "AMOUNT"). cbv iota.
  now rewrite (existsb_absent _ _ Hc).
Qed.

Lemma after_main_keys (g1 g2 : Globals) (w : warehouse) :
  upper (DB g1) = upper (DB g2) -> upper (SCHEMA g1) = upper (SCHEMA g2) ->
  upper (FILE_FORMAT_NAME g1) = upper (FILE_FORMAT_NAME g2) ->
  upper (STAGE_NAME g1) = upper (STAGE_NAME g2) ->
  upper (TABLE_NAME g1) = upper (TABLE_NAME g2) ->
  S3_URL g1 = S3_URL g2 -> COPY_PATTERN g1 = COPY_PATTERN g2 ->
  after_main g1 w = after_main g2 w /\ table_key g1 = table_key g2.
Proof.
  intros H1 H2 H3 H4 H5 H6 H7.
  unfold after_main, provisioned, final_table, new_rows, target_table,
    configured_stage, database_key, schema_key, format_key, stage_key,
    table_key.
  now rewrite H1, H2, H3, H4, H5, H6, H7.
Qed.

Lemma run_times_ready (g : Globals) (w : warehouse) (n : nat) :
  qualified g -> valid_config g = true -> target_ready g w ->
  target_ready g (run_times g n w).
Proof.
  intros Hq Hv Hr. induction n as [|n IH]; [exact Hr|].
  cbn [run_times]. rewrite (final_on_snowflake g _ Hq Hv).
  now apply target_ready_after.
Qed.

Lemma loaded_rows_nil (ff : file_format) (cols : list (string * sqltype))
  (re : regex) (files : list (string * string)) :
  (forall name content,
      (name, content) ∈ files -> matches re name = true ->
      (length (records content) <= skip_header ff)%nat) ->
  loaded_rows ff cols re files = [].
Proof.
  intros H. destruct (loaded_rows ff cols re files) as [|vs l] eqn:E;
    [reflexivity|].
  assert (vs ∈ loaded_rows ff cols re files) as Hin
    by (rewrite E; apply elem_of_cons; now left).
  apply loaded_rows_spec in Hin as (name & content & record & Ho & Hm & Hr & _).
  rewrite drop_ge in Hr by now apply (H name content). inversion Hr.
Qed.

Lemma returned_row_original (vs : list value) :
  length vs = 6%nat ->
  take 6 (returned_row vs) = zip (map fst orders_columns) vs.
Proof.
  intros H. destruct vs as [|v1 [|v2 [|v3 [|v4 [|v5 [|v6 [|]]]]]]];
    try discriminate H. reflexivity.
Qed.

Lemma row_has_types_length (tys : list sqltype) (vs : list value) :
  row_has_types tys vs = true -> length vs = length tys.
Proof.
  revert vs. induction tys as [|ty tys IH]; intros [|v vs]; simpl;
    try discriminate; [reflexivity|].
  intros H. apply andb_prop in H as [_ H]. f_equal. now apply IH.
Qed.

(** ** Records *)

Lemma split_on_length (d : ascii) (cur s : string) :
  some_char is_escape s = false ->
  length (split_on d cur s) = S (occurrences d s).
Proof.
  revert cur. induction s as [|c s IH]; intros cur; [reflexivity|].
  cbn [some_char split_on occurrences]. intros H.
  apply orb_false_elim in H as [Hc Hs]. unfold is_escape in Hc. rewrite Hc.
  destruct (Ascii.eqb c d); cbn [length]; now rewrite IH.
Qed.

Lemma field_value_text (ff : file_format) (raw : string) :
  is_Some (field_value ff STRING raw).
Proof. unfold field_value. destruct (null_field ff raw); eauto. Qed.

Lemma field_value_number (raw : string) :
  numeric_field raw -> is_Some (field_value csv_profile NUMBER raw).
Proof.
  unfold field_value, numeric_field. intros H.
  destruct (null_field csv_profile raw) eqn:E; [eauto|].
  destruct H as [H|[H|H]].
  - rewrite (proj2 (null_field_profile raw)) in E by tauto. discriminate E.
  - rewrite (proj2 (null_field_profile raw)) in E by tauto. discriminate E.
  - rewrite (number_unescaped raw H). now apply fmap_is_Some.
Qed.

Lemma convert_fields_length (ff : file_format) (tys : list sqltype)
  (raws : list string) :
  is_Some (convert_fields ff tys raws) -> length raws = length tys.
Proof.
  revert raws. induction tys as [|ty tys IH]; intros [|raw raws]; simpl;
    try (intros [? H]; discriminate H); [reflexivity|].
  destruct (field_value ff ty raw); simpl; [|intros [? H]; discriminate H].
  rewrite fmap_is_Some. intros H. f_equal. now apply IH.
Qed.

Lemma convert_fields_cons (ff : file_format) (ty : sqltype)
  (tys : list sqltype) (raw : string) (raws : list string) :
  is_Some (convert_fields ff (ty :: tys) (raw :: raws)) <->
  is_Some (field_value ff ty raw) /\ is_Some (convert_fields ff tys raws).
Proof.
  simpl. destruct (field_value ff ty raw); simpl.
  - rewrite fmap_is_Some. split; [eauto | now intros [_ ?]].
  - split; [intros [? H]; discriminate H | intros [[? H] _]; discriminate H].
Qed.

(** ** Numbers *)

Lemma number_of_text_nearest (raw : string) (neg : bool) (m : N) (k : nat)
  (z : Z) :
  decimal raw = Some (neg, m, k) -> number_of_text raw = Some z ->
  (2 * Z.of_N m - 10 ^ Z.of_nat k < 2 * 10 ^ Z.of_nat k * Z.abs z
   <= 2 * Z.of_N m + 10 ^ Z.of_nat k)%Z /\
  (if neg then z <= 0 else 0 <= z)%Z.
Proof.
  intros Hd. unfold number_of_text. rewrite Hd.
  set (p := (10 ^ N.of_nat k)%N).
  assert (0 < p)%N as Hp by (apply N.neq_0_lt_0, N.pow_nonzero; discriminate).
  assert (2 * p <> 0)%N as Hne by lia.
  pose proof (N.div_mod (2 * m + p) (2 * p) Hne) as Hdm.
  pose proof (N.mod_lt (2 * m + p) (2 * p) Hne) as Hlt.
  revert Hdm Hlt.
  generalize ((2 * m + p) / (2 * p))%N, ((2 * m + p) mod (2 * p))%N.
  intros n r Hdm Hlt.
  assert (2 * p * n <= 2 * m + p < 2 * p * n + 2 * p)%N as Hn by lia.
  assert ((10 ^ Z.of_nat k)%Z = Z.of_N p) as ->.
  { unfold p. rewrite N2Z.inj_pow, nat_N_Z. reflexivity. }
  destruct (n <? 10 ^ 38)%N; [|discriminate]. intros [= <-].
  assert (Z.of_N (2 * p * n) = 2 * Z.of_N p * Z.of_N n)%Z as Hz by lia.
  assert (Z.abs (if neg then (- Z.of_N n)%Z else Z.of_N n) = Z.of_N n) as ->
    by (destruct neg; lia).
  split; [lia | destruct neg; lia].
Qed.

(** ** Patterns *)

Lemma matches_none (s : string) : matches RNone s = false.
Proof. induction s as [|c s IH]; simpl; [reflexivity | exact IH]. Qed.

Lemma matches_eps (s : string) : matches REps s = true <-> s = "".
Proof.
  destruct s as [|c s]; simpl; [tauto|]. rewrite matches_none.
  split; discriminate.
Qed.

Lemma matches_char (c : ascii) (s : string) :
  matches (RChar c) s = true <-> s = String c "".
Proof.
  destruct s as [|c' s]; simpl; [split; discriminate|].
  destruct (Ascii.eqb_spec c' c) as [->|Hne].
  - rewrite matches_eps. split; [now intros -> | now intros [= ->]].
  - rewrite matches_none. split; [discriminate | intros [= ? _]; contradiction].
Qed.

Lemma matches_alt (r1 r2 : regex) (s : string) :
  matches (RAlt r1 r2) s = matches r1 s || matches r2 s.
Proof.
  revert r1 r2. induction s as [|c s IH]; intros r1 r2; simpl;
    [reflexivity | apply IH].
Qed.

Lemma matches_seq (r1 r2 : regex) (s : string) :
  matches (RSeq r1 r2) s = true <->
  exists s1 s2, s = s1 +:+ s2 /\ matches r1 s1 = true /\ matches r2 s2 = true.
Proof.
  revert r1 r2. induction s as [|c s IH]; intros r1 r2.
  - simpl. rewrite andb_true_iff. split.
    + intros [H1 H2]. exists "", "". auto.
    + intros (s1 & s2 & Hs & H1 & H2).
      destruct s1; [|discriminate Hs]. destruct s2; [|discriminate Hs]. auto.
  - cbn [matches derive].
    assert (matches (RSeq (derive c r1) r2) s = true <->
            exists s1 s2, String c s = String c s1 +:+ s2 /\
                          matches r1 (String c s1) = true /\
                          matches r2 s2 = true) as Hcons.
    { rewrite IH. split; intros (s1 & s2 & Hs & H1 & H2); exists s1, s2.
      - subst s. auto.
      - injection Hs as ->. auto. }
    destruct (nullable r1) eqn:Hn.
    + rewrite matches_alt, orb_true_iff, Hcons. split.
      * intros [(s1 & s2 & Hs & H1 & H2)|H].
        -- exists (String c s1), s2. auto.
        -- exists "", (String c s). auto.
      * intros ([|c1 s1] & s2 & Hs & H1 & H2).
        -- right. simpl in Hs. now subst s2.
        -- left. injection Hs as -> ->. exists s1, s2. auto.
    + rewrite Hcons. split.
      * intros (s1 & s2 & Hs & H1 & H2). exists (String c s1), s2. auto.
      * intros ([|c1 s1] & s2 & Hs & H1 & H2).
        -- simpl in H1. congruence.
        -- injection Hs as -> ->. exists s1, s2. auto.
Qed.

Lemma matches_any_star (s : string) : matches (RStar RAny) s = true.
Proof.
  induction s as [|c s IH]; [reflexivity|]. cbn [matches derive].
  apply matches_seq. exists "", s. auto.
Qed.

Lemma matches_literally (lit : string) (k : regex) (s : string) :
  matches (literally lit k) s = true <->
  exists t, s = lit +:+ t /\ matches k t = true.
Proof.
  revert s. induction lit as [|c lit IH]; intros s; cbn [literally].
  - split; [intros H; exists s; auto | now intros (t & -> & H)].
  - rewrite matches_seq. split.
    + intros (s1 & s2 & -> & H1 & H2). apply matches_char in H1 as ->.
      apply IH in H2 as (t & -> & Ht). exists t. auto.
    + intros (t & -> & Ht). exists (String c ""), (lit +:+ t).
      split; [reflexivity|]. split; [now apply matches_char|].
      apply IH. eauto.
Qed.

Lemma atom_literal (c : ascii) :
  is_literal c = true -> atom c = Some (RChar c).
Proof.
  unfold is_literal, atom. intros H. apply andb_prop in H as [H1 H2].
  apply negb_true_iff in H1, H2. now rewrite H1, H2.
Qed.

Lemma literal_not_star (c : ascii) :
  is_literal c = true -> Ascii.eqb c "*" = false.
Proof.
  unfold is_literal. intros H. apply andb_prop in H as [_ H].
  destruct (Ascii.eqb_spec c "*") as [->|]; [discriminate H | reflexivity].
Qed.

Lemma parse_regex_literally (lit : string) :
  all_chars is_literal lit = true ->
  parse_regex (lit +:+ ".*")
  = Some (literally lit (RSeq (RStar RAny) REps)).
Proof.
  induction lit as [|c lit IH]; [reflexivity|].
  intros H. cbn [all_chars] in H. apply andb_prop in H as [Hc Hlit].
  specialize (IH Hlit). cbn [String.append parse_regex].
  rewrite (atom_literal c Hc). cbn [mbind option_bind].
  destruct lit as [|c' lit].
  - reflexivity.
  - cbn [String.append] in *. cbn [all_chars] in Hlit.
    apply andb_prop in Hlit as [Hc' _]. rewrite (literal_not_star c' Hc').
    rewrite IH. reflexivity.
Qed.

Lemma parse_regex_contains (lit : string) :
  all_chars is_literal lit = true ->
  parse_regex (".*" +:+ lit +:+ ".*")
  = Some (RSeq (RStar RAny) (literally lit (RSeq (RStar RAny) REps))).
Proof.
  intros H. cbn [String.append parse_regex atom].
  change (atom ".") with (Some RAny). cbn [mbind option_bind].
  change (Ascii.eqb "*" "*") with true. cbn iota.
  now rewrite (parse_regex_literally lit H).
Qed.

Lemma matches_contains (lit name : string) :
  matches (RSeq (RStar RAny) (literally lit (RSeq (RStar RAny) REps))) name
  = true <-> occurs_in lit name.
Proof.
  unfold occurs_in. rewrite matches_seq. split.
  - intros (a & s2 & -> & _ & H2).
    apply matches_literally in H2 as (b & -> & _). eauto.
  - intros (a & b & ->). exists a, (lit +:+ b). split; [reflexivity|].
    split; [apply matches_any_star|]. apply matches_literally.
    exists b. split; [reflexivity|]. apply matches_seq.
    exists b, "". rewrite append_empty_r.
    split; [reflexivity|]. split; [apply matches_any_star | reflexivity].
Qed.

(** ** The properties *)

(** X1.  [_exec] drops the rows a statement answers with, and [main] never
    looks at them: whatever rows the six statements answer with (the status
    of a create, the report of the load on the files it read and the
    records it rejected), a run issues the same requests, returns the same
    rows and leaves the same state. *)
Theorem statement_rows_are_dropped (environ : gmap string string)
  (S : Session) (status : string -> state S -> list Row) (s : state S) :
  let g := import_module environ in
  (forall text : string,
      run (with_status_rows S status) (_exec text) s = run S (_exec text) s) /\
  run (with_status_rows S status) (main g) s = run S (main g) s.
Proof.
  intros g. split.
  - intros text. unfold _exec. simpl.
    now destruct (run_sql S text s) as [[? ?]|].
  - unfold main, _exec. simpl.
    repeat (match goal with
            | |- context [run_sql S ?t ?s] =>
                destruct (run_sql S t s) as [[? ?]|]; [|reflexivity]
            end).
    reflexivity.
Qed.

(** X2.  [main] returns the rows the read answers with, as they are, and
    only after the six statements have been answered: a run returns [rows]
    and ends in the state [s'] exactly when the six statements are answered
    one after the other and the read of the first 10 rows of the
    transformed table, issued on the state they leave, answers [rows] and
    leaves [s']; the run has then issued all seven requests. *)
Theorem main_returns_what_the_read_answers (environ : gmap string string)
  (S : Session) (s s' : state S) (rows : list Row) :
  let g := import_module environ in
  let o := run S (main g) s in
  ((returned o = Some rows /\ final o = s') <->
   exists s6,
     answer_all S (statements g) s = Some s6 /\
     run_collect S (limit (df_transformed g) 10) s6 = Some (rows, s')) /\
  (returned o = Some rows -> issued o = plan g).
Proof.
  intros g o. unfold o. rewrite run_main_plan. split.
  - apply (issue_all_returns S (statements g)
             (ReqCollect (limit (df_transformed g) 10))).
  - intros H. apply issue_all_issued. rewrite H. eauto.
Qed.

(** X3.  [main] handles no exception and undoes nothing: when the request
    at position [i] of the sequence raises, the earlier ones having been
    answered, the run ends there without a result, no later request is
    issued, and the session is left in the state the earlier requests have
    brought it to. *)
Theorem main_stops_at_the_first_failure (environ : gmap string string)
  (S : Session) (s s' : state S) (i : nat) (r : Request) :
  let g := import_module environ in
  plan g !! i = Some r ->
  answer_all S (take i (plan g)) s = Some s' ->
  serve S r s' = None ->
  run S (main g) s
  = {| issued := take (Datatypes.S i) (plan g); returned := None;
       final := s' |}.
Proof.
  intros g Hi Hpre Hr. rewrite run_main_plan.
  rewrite <- (take_drop_middle (plan g) i r Hi) at 1.
  rewrite (issue_all_stops S _ _ r [] s s' Hpre Hr). f_equal.
  symmetry. now apply take_S_r.
Qed.

(** The schema name is set to the empty text: the database is created, the
    second statement is refused, and the database stays. *)
Lemma main_stops_at_the_first_failure_witness :
  let g := import_module {[ "SF_SCHEMA" := "" ]} in
  let w := empty_account orders_store in
  let w1 := {| databases := {[ "DATA_PIPELINE_DB" ]}; schemas := ∅;
               file_formats := ∅; stages := ∅; tables := ∅;
               storage := orders_store |} in
  plan g !! 1%nat
  = Some (ReqSql "CREATE SCHEMA IF NOT EXISTS DATA_PIPELINE_DB.") /\
  answer_all session (take 1 (plan g)) w = Some w1 /\
  run session (main g) w
  = {| issued := [ReqSql "CREATE DATABASE IF NOT EXISTS DATA_PIPELINE_DB";
                  ReqSql "CREATE SCHEMA IF NOT EXISTS DATA_PIPELINE_DB."];
       returned := None; final := w1 |}.
Proof.
  assert (plan (import_module {[ "SF_SCHEMA" := "" ]}) !! 1%nat
          = Some (ReqSql "CREATE SCHEMA IF NOT EXISTS DATA_PIPELINE_DB."))
    as Hi by (vm_compute; reflexivity).
  assert (answer_all session
            (take 1 (plan (import_module {[ "SF_SCHEMA" := "" ]})))
            (empty_account orders_store)
          = Some {| databases := {[ "DATA_PIPELINE_DB" ]}; schemas := ∅;
                    file_formats := ∅; stages := ∅; tables := ∅;
                    storage := orders_store |}) as Hpre
    by (vm_compute; reflexivity).
  split; [exact Hi|]. split; [exact Hpre|].
  apply (main_stops_at_the_first_failure {[ "SF_SCHEMA" := "" ]} session _ _
           1%nat _ Hi Hpre).
  vm_compute. reflexivity.
Defined.

(** X4.  The module reads the seven variables and nothing else of the
    environment, and a variable left unset cannot be told from one set to
    its default: two environments give the same globals, and so the same
    procedure, exactly when [os.getenv] answers the same for each of the
    seven variables with its default.  In particular, setting any other
    variable changes nothing. *)
Theorem configuration_is_the_seven_values (e1 e2 : gmap string string) :
  (Forall (fun v => getenv e1 v.1 v.2 = getenv e2 v.1 v.2) variables <->
   import_module e1 = import_module e2) /\
  (import_module e1 = import_module e2 ->
   main (import_module e1) = main (import_module e2)) /\
  (forall key val : string,
      key ∉ map fst variables ->
      import_module (<[ key := val ]> e1) = import_module e1).
Proof.
  split; [split|split].
  - intros H. unfold variables in H.
    repeat (apply Forall_cons in H as [? H]). simpl in *.
    unfold import_module. congruence.
  - unfold import_module. intros [= H1 H2 H3 H4 H5 H6 H7 _ _ _].
    unfold variables. repeat constructor; assumption.
  - now intros ->.
  - intros key val Hkey. unfold import_module, getenv.
    assert (forall k, k ∈ map fst variables ->
              <[ key := val ]> e1 !! k = e1 !! k) as Hk.
    { intros k Hin. apply lookup_insert_ne. intros ->. contradiction. }
    rewrite !Hk by (unfold variables; simpl; set_solver).
    reflexivity.
Qed.

(** X5.  A variable that is set is taken as it is, with no check and no
    fallback: with [SF_DB] set to the empty text the database name is
    empty, not the default, the qualified names start with a dot, and on
    the warehouse [main] raises at its first statement, having created
    nothing. *)
Theorem empty_database_name_is_not_defaulted (environ : gmap string string)
  (w : warehouse) :
  let g := import_module environ in
  environ !! "SF_DB" = Some "" ->
  DB g = "" /\
  FQ_TABLE g = "." +:+ SCHEMA g +:+ "." +:+ TABLE_NAME g /\
  run session (main g) w
  = {| issued := [ReqSql "CREATE DATABASE IF NOT EXISTS "]; returned := None;
       final := w |}.
Proof.
  intros g H.
  assert (DB g = "") as Hdb by (unfold g, import_module, getenv; now rewrite H).
  split; [exact Hdb|]. split.
  - unfold g, import_module, getenv, fq. cbn [FQ_TABLE SCHEMA TABLE_NAME].
    now rewrite H.
  - unfold main, _exec, create_database_sql. rewrite Hdb.
    cbn [bind run session run_sql].
    replace (sql ("CREATE DATABASE IF NOT EXISTS " +:+ "") w)
      with (@None (list Row * warehouse)); [reflexivity|].
    unfold sql.
    replace (parse_sql ("CREATE DATABASE IF NOT EXISTS " +:+ ""))
      with (@None stmt) by (vm_compute; reflexivity).
    reflexivity.
Qed.

(** The database name is set to the empty text, next to a table name. *)
Lemma empty_database_name_is_not_defaulted_witness :
  let environ : gmap string string :=
    <[ "SF_DB" := "" ]> {[ "SF_TABLE" := "SALES" ]} in
  let g := import_module environ in
  environ !! "SF_DB" = Some "" /\
  FQ_TABLE g = ".CSV_FILES.SALES" /\
  run session (main g) (empty_account orders_store)
  = {| issued := [ReqSql "CREATE DATABASE IF NOT EXISTS "]; returned := None;
       final := empty_account orders_store |}.
Proof.
  assert ((<[ "SF_DB" := "" ]> {[ "SF_TABLE" := "SALES" ]}
           : gmap string string) !! "SF_DB" = Some "") as H
    by (vm_compute; reflexivity).
  split; [exact H|].
  destruct (empty_database_name_is_not_defaulted _
              (empty_account orders_store) H) as (_ & Hfq & Hrun).
  split; [|exact Hrun]. rewrite Hfq. vm_compute. reflexivity.
Defined.

(** X6.  The five creates carry [IF NOT EXISTS], so objects already in
    place under the configured names win over the configuration: a file
    format, a stage and a table found there are kept as they are, and the
    load reads the location of the stage in place through the file format
    in place into the columns in place.  [S3_URL], the CSV options and the
    column list of [main] have no effect on such an account. *)
Theorem objects_in_place_are_kept (environ : gmap string string)
  (w : warehouse) (f : file_format) (s : stage) (t : table_data) :
  let g := import_module environ in
  let w' := final (run session (main g) w) in
  valid_config g = true ->
  file_formats w !! format_key g = Some f ->
  stages w !! stage_key g = Some s ->
  tables w !! table_key g = Some t ->
  file_formats w' !! format_key g = Some f /\
  stages w' !! stage_key g = Some s /\
  exists re,
    parse_regex (COPY_PATTERN g) = Some re /\
    tables w' !! table_key g
    = Some {| columns := columns t;
              rows := (rows t ++
                       loaded_rows f (columns t) re
                         (storage w (stage_url s)))%list |}.
Proof.
  intros g w' Hv Hf Hs Ht.
  pose proof (import_module_qualified environ) as Hq. fold g in Hq.
  unfold w'. rewrite (final_on_snowflake g w Hq Hv).
  destruct (valid_parts g Hv) as (_ & _ & _ & _ & _ & _ & _ & [re Hre]).
  cbn [after_main provisioned file_formats stages tables].
  rewrite !ensure_lookup, Hf, Hs. split; [reflexivity|].
  split; [reflexivity|]. exists re. split; [exact Hre|].
  rewrite lookup_insert_eq. unfold final_table, new_rows, target_table.
  now rewrite Hre, Hf, Hs, Ht.
Qed.

(** An account where the three objects exist, the stage at another
    location and the file format without a header line. *)
Lemma objects_in_place_are_kept_witness :
  let g := import_module ∅ in
  let f := {| type := CSV; field_delimiter := ","; skip_header := 0;
              empty_field_as_null := true |} in
  let s := {| stage_url := "s3://elsewhere/"; stage_format := None |} in
  let t := {| columns := [("ID", STRING)]; rows := [[VText "B-1"]] |} in
  let w := {| databases := ∅; schemas := ∅;
              file_formats := {[ format_key g := f ]};
              stages := {[ stage_key g := s ]};
              tables := {[ table_key g := t ]};
              storage := orders_store |} in
  let w' := final (run session (main g) w) in
  valid_config g = true /\
  file_formats w' !! format_key g = Some f /\
  stages w' !! stage_key g = Some s.
Proof.
  assert (valid_config (import_module ∅) = true) as Hv
    by (vm_compute; reflexivity).
  split; [exact Hv|].
  pose proof (objects_in_place_are_kept ∅
    {| databases := ∅; schemas := ∅;
       file_formats :=
         {[ format_key (import_module ∅) :=
              {| type := CSV; field_delimiter := ","; skip_header := 0;
                 empty_field_as_null := true |} ]};
       stages :=
         {[ stage_key (import_module ∅) :=
              {| stage_url := "s3://elsewhere/"; stage_format := None |} ]};
       tables :=
         {[ table_key (import_module ∅) :=
              {| columns := [("ID", STRING)]; rows := [[VText "B-1"]] |} ]};
       storage := orders_store |}
    _ _ _ Hv (lookup_singleton_eq _ _) (lookup_singleton_eq _ _)
    (lookup_singleton_eq _ _)) as (H1 & H2 & _).
  split; [exact H1 | exact H2].
Defined.

(** X7.  [main] touches nothing but its five objects, and never takes
    anything away: after a run the object store is as it was, the
    databases and schemas are the ones there were with the configured ones
    added, every file format, stage and table under another name is as it
    was, and the rows the target table held are still there, in front of
    the rows loaded. *)
Theorem main_touches_only_its_objects (environ : gmap string string)
  (w : warehouse) :
  let g := import_module environ in
  let w' := final (run session (main g) w) in
  valid_config g = true ->
  storage w' = storage w /\
  databases w' = {[ database_key g ]} ∪ databases w /\
  schemas w' = {[ schema_key g ]} ∪ schemas w /\
  (forall k, k <> format_key g -> file_formats w' !! k = file_formats w !! k) /\
  (forall k, k <> stage_key g -> stages w' !! k = stages w !! k) /\
  (forall k, k <> table_key g -> tables w' !! k = tables w !! k) /\
  (forall t, tables w !! table_key g = Some t ->
             exists new, tables w' !! table_key g
                         = Some {| columns := columns t;
                                   rows := (rows t ++ new)%list |}).
Proof.
  intros g w' Hv.
  pose proof (import_module_qualified environ) as Hq. fold g in Hq.
  unfold w'. rewrite (final_on_snowflake g w Hq Hv).
  cbn [after_main provisioned storage databases schemas file_formats stages
       tables].
  repeat split.
  - intros k Hk. now apply ensure_lookup_ne.
  - intros k Hk. now apply ensure_lookup_ne.
  - intros k Hk. rewrite lookup_insert_ne by congruence.
    now apply ensure_lookup_ne.
  - intros t Ht. exists (new_rows g w). rewrite lookup_insert_eq.
    unfold final_table, target_table. now rewrite Ht.
Qed.

(** The defaults, on an account with nothing in it. *)
Lemma main_touches_only_its_objects_witness :
  let g := import_module ∅ in
  let w := empty_account orders_store in
  let w' := final (run session (main g) w) in
  valid_config g = true /\
  storage w' = storage w /\
  databases w' = {[ database_key g ]} ∪ databases w.
Proof.
  assert (valid_config (import_module ∅) = true) as Hv
    by (vm_compute; reflexivity).
  split; [exact Hv|].
  destruct (main_touches_only_its_objects ∅ (empty_account orders_store) Hv)
    as (H1 & H2 & _).
  split; [exact H1 | exact H2].
Defined.

(** X8.  On an account where the file format, the stage and the table do
    not exist yet, a run creates the stage at [S3_URL] with the file format
    of [main] attached, and ends with the target table holding exactly the
    records that load, read under the CSV profile of [main] from the files
    at [S3_URL] whose name matches [COPY_PATTERN]; it returns the first 10
    of them, each with its two derived fields. *)
Theorem first_run_returns_the_loaded_records (environ : gmap string string)
  (w : warehouse) :
  let g := import_module environ in
  let o := run session (main g) w in
  valid_config g = true ->
  file_formats w !! format_key g = None ->
  stages w !! stage_key g = None ->
  tables w !! table_key g = None ->
  stages (final o) !! stage_key g
  = Some {| stage_url := S3_URL g; stage_format := Some (format_key g) |} /\
  exists re,
    parse_regex (COPY_PATTERN g) = Some re /\
    let loaded :=
      loaded_rows csv_profile orders_columns re (storage w (S3_URL g)) in
    tables (final o) !! table_key g
    = Some {| columns := orders_columns; rows := loaded |} /\
    returned o = Some (take 10 (map returned_row loaded)).
Proof.
  intros g o Hv Hf Hs Ht.
  pose proof (import_module_qualified environ) as Hq. fold g in Hq.
  destruct (valid_parts g Hv) as (_ & _ & _ & _ & _ & _ & _ & [re Hre]).
  assert (target_ready g w) as Hr by (unfold target_ready; now rewrite Ht).
  assert (final_table g w
          = {| columns := orders_columns;
               rows := loaded_rows csv_profile orders_columns re
                         (storage w (S3_URL g)) |}) as Hfinal.
  { unfold final_table, new_rows, target_table.
    now rewrite Hre, Hf, Hs, Ht. }
  split.
  - unfold o. rewrite (final_on_snowflake g w Hq Hv).
    cbn [after_main provisioned stages]. now rewrite ensure_lookup, Hs.
  - exists re. split; [exact Hre|]. split.
    + unfold o. rewrite (final_on_snowflake g w Hq Hv).
      cbn [after_main tables]. now rewrite lookup_insert_eq, Hfinal.
    + unfold o. rewrite (returned_on_snowflake g w Hq Hv Hr).
      now rewrite Hfinal.
Qed.

(** The defaults, on an account with nothing in it: of the two staged
    files, the one whose name matches is loaded. *)
Lemma first_run_returns_the_loaded_records_witness :
  let g := import_module ∅ in
  let w := empty_account orders_store in
  let o := run session (main g) w in
  valid_config g = true /\
  file_formats w !! format_key g = None /\
  stages w !! stage_key g = None /\
  tables w !! table_key g = None /\
  exists re,
    parse_regex (COPY_PATTERN g) = Some re /\
    let loaded :=
      loaded_rows csv_profile orders_columns re (storage w (S3_URL g)) in
    loaded = [[VText "B-25602"; VNumber 100; VNumber (-20); VNumber 3;
               VText "Clothing"; VText "Saree"]] /\
    returned o = Some (take 10 (map returned_row loaded)).
Proof.
  assert (valid_config (import_module ∅) = true) as Hv
    by (vm_compute; reflexivity).
  split; [exact Hv|]. do 3 (split; [reflexivity|]).
  destruct (first_run_returns_the_loaded_records ∅
              (empty_account orders_store) Hv eq_refl eq_refl eq_refl)
    as (_ & re & Hre & _ & Hret).
  exists re. split; [exact Hre|]. split; [|exact Hret].
  vm_compute in Hre. injection Hre as <-. vm_compute. reflexivity.
Defined.

(** X9.  [CREATE TABLE IF NOT EXISTS] does not reshape a table already in
    place.  When the target table exists without a column AMOUNT, whatever
    rows it holds, the six statements still go through, the load included,
    and it is the read that raises, on the column [Amount]: [main] returns
    nothing, and what the statements did stays. *)
Theorem table_in_place_without_amount (environ : gmap string string)
  (w : warehouse) (t : table_data) :
  let g := import_module environ in
  let o := run session (main g) w in
  valid_config g = true ->
  tables w !! table_key g = Some t ->
  ("AMOUNT" ∉ map fst (columns t)) ->
  issued o = plan g /\ returned o = None /\
  serve session (ReqCollect (limit (df_transformed g) 10)) (final o) = None /\
  exists new,
    tables (final o) !! table_key g
    = Some {| columns := columns t; rows := (rows t ++ new)%list |}.
Proof.
  intros g o Hv Ht Hc.
  pose proof (import_module_qualified environ) as Hq. fold g in Hq.
  assert (tables (after_main g w) !! table_key g
          = Some {| columns := columns t;
                    rows := (rows t ++ new_rows g w)%list |}) as Hfinal.
  { cbn [after_main tables]. rewrite lookup_insert_eq.
    unfold final_table, target_table. now rewrite Ht. }
  assert (eval (after_main g w) (limit (df_transformed g) 10) = None) as He
    by (apply (eval_without_amount g _ _ Hq Hv Hfinal); exact Hc).
  unfold o. rewrite (run_on_snowflake g w Hq Hv). cbn [issued returned final].
  split; [reflexivity|]. split; [exact He|]. split.
  - cbn [serve session run_collect]. unfold collect. now rewrite He.
  - exists (new_rows g w). exact Hfinal.
Qed.

(** A target table in place with other columns and no row. *)
Lemma table_in_place_without_amount_witness :
  let g := import_module ∅ in
  let t := {| columns := [("ID", STRING); ("TOTAL", NUMBER)]; rows := [] |} in
  let w := {| databases := ∅; schemas := ∅; file_formats := ∅; stages := ∅;
              tables := {[ table_key g := t ]}; storage := orders_store |} in
  let o := run session (main g) w in
  valid_config g = true /\ tables w !! table_key g = Some t /\
  ("AMOUNT" ∉ map fst (columns t)) /\
  issued o = plan g /\ returned o = None.
Proof.
  assert (valid_config (import_module ∅) = true) as Hv
    by (vm_compute; reflexivity).
  assert ("AMOUNT" ∉ ["ID"; "TOTAL"]) as Hc.
  { intros H. apply elem_of_cons in H as [H|H]; [discriminate H|].
    apply elem_of_cons in H as [H|H]; [discriminate H | inversion H]. }
  split; [exact Hv|]. split; [apply lookup_singleton_eq|].
  split; [exact Hc|].
  destruct (table_in_place_without_amount ∅
    {| databases := ∅; schemas := ∅; file_formats := ∅; stages := ∅;
       tables :=
         {[ table_key (import_module ∅) :=
              {| columns := [("ID", STRING); ("TOTAL", NUMBER)];
                 rows := [] |} ]};
       storage := orders_store |}
    _ Hv (lookup_singleton_eq _ _) Hc) as (H1 & H2 & _).
  split; [exact H1 | exact H2].
Defined.

(** X10.  The names are interpolated without quotes, so the warehouse
    resolves them in upper case: two configurations whose five names differ
    in the case of their letters only, with the same location and pattern,
    address the same objects, and on the same account the two runs leave
    the same state and return the same rows. *)
Theorem names_differing_in_case_only (e1 e2 : gmap string string)
  (w : warehouse) :
  let g1 := import_module e1 in
  let g2 := import_module e2 in
  valid_config g1 = true -> valid_config g2 = true ->
  upper (DB g1) = upper (DB g2) -> upper (SCHEMA g1) = upper (SCHEMA g2) ->
  upper (FILE_FORMAT_NAME g1) = upper (FILE_FORMAT_NAME g2) ->
  upper (STAGE_NAME g1) = upper (STAGE_NAME g2) ->
  upper (TABLE_NAME g1) = upper (TABLE_NAME g2) ->
  S3_URL g1 = S3_URL g2 -> COPY_PATTERN g1 = COPY_PATTERN g2 ->
  final (run session (main g1) w) = final (run session (main g2) w) /\
  returned (run session (main g1) w) = returned (run session (main g2) w).
Proof.
  intros g1 g2 Hv1 Hv2 H1 H2 H3 H4 H5 H6 H7.
  pose proof (import_module_qualified e1) as Hq1. fold g1 in Hq1.
  pose proof (import_module_qualified e2) as Hq2. fold g2 in Hq2.
  destruct (after_main_keys g1 g2 w H1 H2 H3 H4 H5 H6 H7) as [Ha Hk].
  rewrite (run_on_snowflake g1 w Hq1 Hv1), (run_on_snowflake g2 w Hq2 Hv2).
  cbn [final returned]. split; [exact Ha|].
  rewrite (eval_sample g1 _ Hq1 Hv1), (eval_sample g2 _ Hq2 Hv2).
  now rewrite Ha, Hk.
Qed.

(** The table and the file format named in lower case and in upper case. *)
Lemma names_differing_in_case_only_witness :
  let g1 := import_module {[ "SF_TABLE" := "orders" ]} in
  let g2 := import_module {[ "SF_FILE_FORMAT" := "CSV_FORMAT" ]} in
  let w := empty_account orders_store in
  TABLE_NAME g1 = "orders" /\ TABLE_NAME g2 = "ORDERS" /\
  FILE_FORMAT_NAME g1 = "csv_format" /\ FILE_FORMAT_NAME g2 = "CSV_FORMAT" /\
  final (run session (main g1) w) = final (run session (main g2) w) /\
  returned (run session (main g1) w) = returned (run session (main g2) w).
Proof.
  do 4 (split; [vm_compute; reflexivity|]).
  apply (names_differing_in_case_only {[ "SF_TABLE" := "orders" ]}
           {[ "SF_FILE_FORMAT" := "CSV_FORMAT" ]});
    vm_compute; reflexivity.
Defined.

(** X11.  A run leaves the account ready for the next one.  When the
    target table is still to be created or has the shape [main] gives it,
    a run returns and leaves the table with that shape, every value under
    the type of its column; so [main] returns on every one of any number
    of runs in a row. *)
Theorem main_can_be_run_again (environ : gmap string string) (w : warehouse)
  (n : nat) :
  let g := import_module environ in
  valid_config g = true -> target_ready g w ->
  target_ready g (final (run session (main g) w)) /\
  target_ready g (run_times g n w) /\
  is_Some (returned (run session (main g) (run_times g n w))).
Proof.
  intros g Hv Hr.
  pose proof (import_module_qualified environ) as Hq. fold g in Hq.
  split; [|split].
  - rewrite (final_on_snowflake g w Hq Hv). now apply target_ready_after.
  - now apply run_times_ready.
  - rewrite (returned_on_snowflake g _ Hq Hv (run_times_ready g w n Hq Hv Hr)).
    eauto.
Qed.

(** The defaults, run three times on an account with nothing in it at the
    start. *)
Lemma main_can_be_run_again_witness :
  let g := import_module ∅ in
  let w := empty_account orders_store in
  valid_config g = true /\ target_ready g w /\
  is_Some (returned (run session (main g) (run_times g 2 w))).
Proof.
  assert (valid_config (import_module ∅) = true) as Hv
    by (vm_compute; reflexivity).
  assert (target_ready (import_module ∅) (empty_account orders_store)) as Hr
    by (vm_compute; exact I).
  split; [exact Hv|]. split; [exact Hr|].
  exact (proj2 (proj2 (main_can_be_run_again ∅ (empty_account orders_store)
                         2 Hv Hr))).
Defined.

(** X12.  Which records of a staged file [main] loads.  The CSV profile of
    [main] declares no quoting, so a quote does not protect a comma: a
    record that loads is cut by its commas, escaped ones apart, into exactly
    six fields, and when it holds no backslash it has exactly five commas.
    A record of six fields whose second, third and fourth (amount, profit,
    quantity) are each empty, the null marker or a number does load. *)
Theorem which_records_load (record : string) :
  (is_Some (load_record csv_profile orders_columns record) ->
   length (split_on "," "" record) = 6%nat /\
   (some_char is_escape record = false ->
    occurrences "," record = 5%nat)) /\
  (forall id amount profit quantity category sub_category : string,
      split_on "," "" record
      = [id; amount; profit; quantity; category; sub_category] ->
      numeric_field amount -> numeric_field profit ->
      numeric_field quantity ->
      is_Some (load_record csv_profile orders_columns record)).
Proof.
  unfold load_record. cbn [field_delimiter csv_profile map snd orders_columns].
  split.
  - intros H. apply convert_fields_length in H. cbn [length] in H.
    split; [exact H|]. intros Hesc.
    rewrite (split_on_length _ _ _ Hesc) in H. lia.
  - intros f1 f2 f3 f4 f5 f6 -> H2 H3 H4.
    rewrite !convert_fields_cons.
    repeat split; try apply field_value_text;
      try (apply field_value_number; assumption).
    simpl. eauto.
Qed.

(** X13.  Amount, Profit and Quantity are declared NUMBER, which holds whole
    numbers: a decimal read from a file is stored as the nearest integer,
    a half going away from zero, with the sign of the text.  The fraction
    of an amount is lost at the load, before [Amount_num] is derived. *)
Theorem stored_number_is_the_nearest_integer (raw : string) (neg : bool)
  (m : N) (k : nat) (z : Z) :
  decimal raw = Some (neg, m, k) ->
  field_value csv_profile NUMBER raw = Some (VNumber z) ->
  (2 * Z.of_N m - 10 ^ Z.of_nat k < 2 * 10 ^ Z.of_nat k * Z.abs z
   <= 2 * Z.of_N m + 10 ^ Z.of_nat k)%Z /\
  (if neg then z <= 0 else 0 <= z)%Z.
Proof.
  intros Hd Hf. apply (number_of_text_nearest raw neg m k z Hd).
  unfold field_value in Hf.
  destruct (null_field csv_profile raw); [discriminate Hf|].
  assert (unescape raw = raw) as Hraw.
  { apply unescape_plain.
    apply (some_char_all_chars is_escape number_char);
      [intros c Hc; apply (number_char_plain c Hc) |].
    apply decimal_chars. rewrite Hd. eauto. }
  rewrite Hraw in Hf.
  destruct (number_of_text raw); [|discriminate Hf]. now injection Hf as ->.
Qed.

(** The amount 12.5 is stored as 13, and -0.5 as -1. *)
Lemma stored_number_is_the_nearest_integer_witness :
  decimal "12.5" = Some (false, 125%N, 1%nat) /\
  field_value csv_profile NUMBER "12.5" = Some (VNumber 13) /\
  (2 * 125 - 10 < 2 * 10 * Z.abs 13 <= 2 * 125 + 10)%Z /\
  decimal "-0.5" = Some (true, 5%N, 1%nat) /\
  field_value csv_profile NUMBER "-0.5" = Some (VNumber (-1)) /\
  (2 * 5 - 10 < 2 * 10 * Z.abs (-1) <= 2 * 5 + 10)%Z.
Proof.
  assert (decimal "12.5" = Some (false, 125%N, 1%nat)) as Hd1
    by (vm_compute; reflexivity).
  assert (field_value csv_profile NUMBER "12.5" = Some (VNumber 13)) as Hf1
    by (vm_compute; reflexivity).
  assert (decimal "-0.5" = Some (true, 5%N, 1%nat)) as Hd2
    by (vm_compute; reflexivity).
  assert (field_value csv_profile NUMBER "-0.5" = Some (VNumber (-1))) as Hf2
    by (vm_compute; reflexivity).
  split; [exact Hd1|]. split; [exact Hf1|]. split;
    [exact (proj1 (stored_number_is_the_nearest_integer _ _ _ _ _ Hd1 Hf1))|].
  split; [exact Hd2|]. split; [exact Hf2|]. lia.
Defined.

(** X14.  Which staged files the load takes.  For a pattern of the form
    [.*text.*], with [text] made of characters that stand for themselves,
    the files selected are exactly those whose name contains [text], with
    the same case.  The default pattern is of this form: with
    [COPY_PATTERN] unset, a file is loaded exactly when its name contains
    [Order]. *)
Theorem pattern_selects_the_names_containing (environ : gmap string string)
  (text : string) (files : list (string * string)) :
  let g := import_module environ in
  COPY_PATTERN g = ".*" +:+ text +:+ ".*" ->
  all_chars is_literal text = true ->
  exists re,
    parse_regex (COPY_PATTERN g) = Some re /\
    (forall name, matches re name = true <-> occurs_in text name) /\
    (forall name content,
        (name, content) ∈ matching_files re files <->
        (name, content) ∈ files /\ occurs_in text name).
Proof.
  intros g Hpat Hlit. rewrite Hpat, (parse_regex_contains text Hlit).
  eexists. split; [reflexivity|].
  split; [intros name; apply matches_contains|].
  intros name content. rewrite matching_files_spec. cbn [fst].
  now rewrite matches_contains.
Qed.

(** The default pattern. *)
Lemma pattern_selects_the_names_containing_witness :
  let g := import_module ∅ in
  COPY_PATTERN g = ".*" +:+ "Order" +:+ ".*" /\
  all_chars is_literal "Order" = true /\
  exists re,
    parse_regex (COPY_PATTERN g) = Some re /\
    (forall name, matches re name = true <-> occurs_in "Order" name) /\
    (forall name content,
        (name, content) ∈ matching_files re (orders_store "") <->
        (name, content) ∈ orders_store "" /\ occurs_in "Order" name).
Proof.
  split; [reflexivity|]. split; [reflexivity|].
  exact (pattern_selects_the_names_containing ∅ "Order" (orders_store "")
           eq_refl eq_refl).
Defined.

(** X15.  Having nothing to load is not an error.  On an account where the
    file format, the stage and the table do not exist yet, when every
    staged file whose name matches the pattern holds at most its header
    line (and so when there is no such file, or no file at all), [main]
    goes through its seven requests, creates the table with no row in it
    and returns the empty list. *)
Theorem nothing_to_load_is_not_an_error (environ : gmap string string)
  (w : warehouse) :
  let g := import_module environ in
  let o := run session (main g) w in
  valid_config g = true ->
  file_formats w !! format_key g = None ->
  stages w !! stage_key g = None ->
  tables w !! table_key g = None ->
  (forall re name content,
      parse_regex (COPY_PATTERN g) = Some re ->
      (name, content) ∈ storage w (S3_URL g) -> matches re name = true ->
      (length (records content) <= 1)%nat) ->
  issued o = plan g /\ returned o = Some [] /\
  tables (final o) !! table_key g
  = Some {| columns := orders_columns; rows := [] |}.
Proof.
  intros g o Hv Hf Hs Ht Hfiles.
  pose proof (import_module_qualified environ) as Hq. fold g in Hq.
  destruct (valid_parts g Hv) as (_ & _ & _ & _ & _ & _ & _ & [re Hre]).
  assert (target_ready g w) as Hr by (unfold target_ready; now rewrite Ht).
  assert (final_table g w = {| columns := orders_columns; rows := [] |})
    as Hfinal.
  { unfold final_table, new_rows, target_table.
    rewrite Hre, Hf, Hs, Ht. cbn [default columns rows configured_stage
      stage_url app]. f_equal. apply loaded_rows_nil.
    intros name content. apply (Hfiles re name content Hre). }
  split; [|split].
  - unfold o. now rewrite (run_on_snowflake g w Hq Hv).
  - unfold o. rewrite (returned_on_snowflake g w Hq Hv Hr).
    now rewrite Hfinal.
  - unfold o. rewrite (final_on_snowflake g w Hq Hv). cbn [after_main tables].
    now rewrite lookup_insert_eq, Hfinal.
Qed.

(** The defaults, next to a store with one file whose name does not match
    and one that holds its header line only. *)
Lemma nothing_to_load_is_not_an_error_witness :
  let g := import_module ∅ in
  let store := fun _ : string =>
    [("Details_2018.csv", orders_file);
     ("Orders_2019.csv", "ID,Amount,Profit,Quantity,Category,Sub_Category")]
  in
  let o := run session (main g) (empty_account store) in
  valid_config g = true /\
  issued o = plan g /\ returned o = Some [] /\
  tables (final o) !! table_key g
  = Some {| columns := orders_columns; rows := [] |}.
Proof.
  assert (valid_config (import_module ∅) = true) as Hv
    by (vm_compute; reflexivity).
  split; [exact Hv|].
  apply (nothing_to_load_is_not_an_error ∅
           (empty_account
              (fun _ : string =>
                 [("Details_2018.csv", orders_file);
                  ("Orders_2019.csv",
                   "ID,Amount,Profit,Quantity,Category,Sub_Category")]))
           Hv eq_refl eq_refl eq_refl).
  intros re name content Hre Hin Hm. vm_compute in Hre. injection Hre as <-.
  cbn [storage empty_account] in Hin.
  apply elem_of_cons in Hin as [Hin|Hin].
  - injection Hin as -> ->. vm_compute in Hm. discriminate Hm.
  - apply elem_of_cons in Hin as [Hin|Hin]; [|inversion Hin].
    injection Hin as -> ->. vm_compute. lia.
Defined.

(** X16.  The sample is as large as it can be: whenever [main] returns, on
    any account, the rows returned are as many as the target table holds at
    the end of the run, and 10 when it holds more. *)
Theorem sample_has_ten_rows_when_there_are (environ : gmap string string)
  (w : warehouse) (sample : list Row) :
  let g := import_module environ in
  let o := run session (main g) w in
  valid_config g = true -> returned o = Some sample ->
  exists t,
    tables (final o) !! table_key g = Some t /\
    length sample = (length (rows t) `min` 10)%nat.
Proof.
  intros g o Hv. unfold o.
  pose proof (import_module_qualified environ) as Hq. fold g in Hq.
  rewrite (run_on_snowflake g w Hq Hv). cbn [returned final].
  apply (sample_size g _ sample Hq Hv).
Qed.

(** The defaults, on an account with nothing in it and one staged row. *)
Lemma sample_has_ten_rows_when_there_are_witness :
  let g := import_module ∅ in
  let o := run session (main g) (empty_account orders_store) in
  valid_config g = true /\
  exists sample t,
    returned o = Some sample /\
    tables (final o) !! table_key g = Some t /\
    length sample = (length (rows t) `min` 10)%nat.
Proof.
  assert (valid_config (import_module ∅) = true) as Hv
    by (vm_compute; reflexivity).
  split; [exact Hv|].
  destruct (returned (run session (main (import_module ∅))
                        (empty_account orders_store))) as [sample|] eqn:E;
    [|vm_compute in E; discriminate E].
  destruct (sample_has_ten_rows_when_there_are ∅ (empty_account orders_store)
              sample Hv E) as (t & Ht & Hlen).
  exists sample, t. auto.
Defined.

(** X17.  The transform adds and does not change: the rows [main] returns,
    from a target table with the shape [main] creates, are the first rows of
    the table in the order of the table, and the first six fields of each
    are the six values stored, under the names of the six columns. *)
Theorem original_columns_are_returned_unchanged
  (environ : gmap string string) (w : warehouse) :
  let g := import_module environ in
  let o := run session (main g) w in
  valid_config g = true -> target_ready g w ->
  exists t sample,
    tables (final o) !! table_key g = Some t /\
    returned o = Some sample /\
    forall (i : nat) (r : Row),
      sample !! i = Some r ->
      exists vs,
        rows t !! i = Some vs /\
        take 6 r
        = zip ["ID"; "AMOUNT"; "PROFIT"; "QUANTITY"; "CATEGORY";
               "SUB_CATEGORY"] vs.
Proof.
  intros g o Hv Hr.
  pose proof (import_module_qualified environ) as Hq. fold g in Hq.
  destruct (final_table_ok g w Hr) as [Hc Hok].
  exists (final_table g w),
    (take 10 (map returned_row (rows (final_table g w)))).
  split; [|split].
  - unfold o. rewrite (final_on_snowflake g w Hq Hv). cbn [after_main tables].
    apply lookup_insert_eq.
  - apply (returned_on_snowflake g w Hq Hv Hr).
  - intros i r Hi. apply lookup_take_Some in Hi as [Hi _].
    rewrite list_lookup_fmap in Hi.
    destruct (rows (final_table g w) !! i) as [vs|] eqn:E; [|discriminate Hi].
    injection Hi as <-. exists vs. split; [reflexivity|].
    apply returned_row_original. unfold table_ok in Hok. rewrite Hc in Hok.
    rewrite Forall_lookup in Hok.
    exact (row_has_types_length _ vs (Hok i vs E)).
Qed.

(** The defaults, on an account with nothing in it and one staged row. *)
Lemma original_columns_are_returned_unchanged_witness :
  let g := import_module ∅ in
  let w := empty_account orders_store in
  let o := run session (main g) w in
  valid_config g = true /\ target_ready g w /\
  exists t sample,
    tables (final o) !! table_key g = Some t /\
    returned o = Some sample /\
    forall (i : nat) (r : Row),
      sample !! i = Some r ->
      exists vs,
        rows t !! i = Some vs /\
        take 6 r
        = zip ["ID"; "AMOUNT"; "PROFIT"; "QUANTITY"; "CATEGORY";
               "SUB_CATEGORY"] vs.
Proof.
  assert (valid_config (import_module ∅) = true) as Hv
    by (vm_compute; reflexivity).
  assert (target_ready (import_module ∅) (empty_account orders_store)) as Hr
    by (vm_compute; exact I).
  split; [exact Hv|]. split; [exact Hr|].
  exact (original_columns_are_returned_unchanged ∅
           (empty_account orders_store) Hv Hr).
Defined.
